(** * The local paper metadata store of the research server (server.py)

    A shallow embedding of the four operations of server.py that manage the
    topic-partitioned cache of paper metadata:

    - [search_papers]          (the Topic Store's upsert),
    - [extract_info]           (the Metadata Index Query),
    - [get_available_folders]  (the Topic Listing Renderer),
    - [get_topic_papers]       (the Topic Detail Renderer),

    together with the part of Python they run on: strings, JSON values and
    dicts, exceptions, and the files below PAPER_DIR.

    Conventions of the embedding.

    - Strings are Rocq strings, one [ascii] per character; the case
      conversions are those of ASCII text, and a property that depends on
      how a character changes case is stated for strings of ASCII
      characters ([PyStr.is_ascii]).
    - A dict is the list of its items in insertion order.
    - A file operation is a function from the file system to an outcome
      (a value or a raised exception) and the file system it leaves; a
      raised exception keeps the changes made before it.
    - The files are those of PAPER_DIR, one level deep: an entry of
      PAPER_DIR is known by its name, a single component of a path. A
      derived name that is no single component ([plain_name] is false: it
      is empty, "." or "..", has a "/" or a NUL in it, or is too long for a
      file name) would lead the real calls to another entry, below one or
      out of PAPER_DIR; the operations say nothing true about such a name,
      and every property about a namespace that may not exist yet assumes
      [plain_name].
    - The remote search is not part of the store: [search_papers] receives
      the sequence of results that [client.results(search)] yields.
    - Messages written with [print] are not modelled. *)

From Stdlib Require Import List String Ascii Bool Arith ZArith Lia DecimalString.
Import ListNotations.

Local Open Scope list_scope.
Local Open Scope string_scope.

(** ** Python strings *)

Module PyStr.

Definition is_upper (c : ascii) : bool :=
  ((65 <=? nat_of_ascii c) && (nat_of_ascii c <=? 90))%nat.

Definition is_lower (c : ascii) : bool :=
  ((97 <=? nat_of_ascii c) && (nat_of_ascii c <=? 122))%nat.

Definition lower_char (c : ascii) : ascii :=
  if is_upper c then ascii_of_nat (nat_of_ascii c + 32) else c.

Definition upper_char (c : ascii) : ascii :=
  if is_lower c then ascii_of_nat (nat_of_ascii c - 32) else c.

Fixpoint map_chars (f : ascii -> ascii) (s : string) : string :=
  match s with
  | EmptyString => EmptyString
  | String c s' => String (f c) (map_chars f s')
  end.

(** [s.lower()] *)
Definition lower (s : string) : string := map_chars lower_char s.

(** [s.replace(old, new)] for one-character [old] and [new], which is how
    the server calls it. *)
Definition replace (old new : ascii) (s : string) : string :=
  map_chars (fun c => if Ascii.eqb c old then new else c) s.

(** [s.title()]: the first cased character after an uncased one is put in
    upper case, every cased character after a cased one in lower case. *)
Fixpoint title_from (previous_is_cased : bool) (s : string) : string :=
  match s with
  | EmptyString => EmptyString
  | String c s' =>
      if is_lower c then
        String (if previous_is_cased then c else upper_char c)
               (title_from true s')
      else if is_upper c then
        String (if previous_is_cased then lower_char c else c)
               (title_from true s')
      else String c (title_from false s')
  end.

Definition title (s : string) : string := title_from false s.

(** [sep.join(parts)] *)
Fixpoint join (sep : string) (parts : list string) : string :=
  match parts with
  | [] => ""
  | [p] => p
  | p :: ps => p ++ sep ++ join sep ps
  end.

(** [s[:n]] *)
Definition slice_to (n : nat) (s : string) : string := substring 0 n s.

(** [list(s)]: the characters of [s], each a string of length one. *)
Fixpoint chars (s : string) : list string :=
  match s with
  | EmptyString => []
  | String c s' => String c EmptyString :: chars s'
  end.

(** [sub in s] *)
Definition contains (sub s : string) : bool :=
  match index 0 sub s with
  | Some _ => true
  | None => false
  end.

(** [str(n)] for a length. *)
Definition of_nat (n : nat) : string :=
  NilEmpty.string_of_uint (Nat.to_uint n).

(** [s.isascii()]: every character is below 128. For such strings [lower]
    and [title] are what [str.lower] and [str.title] compute. *)
Fixpoint is_ascii (s : string) : bool :=
  match s with
  | EmptyString => true
  | String c s' => (nat_of_ascii c <? 128)%nat && is_ascii s'
  end.

(** The number of bytes of [s] in UTF-8, a character above 127 taking
    two. *)
Fixpoint utf8_size (s : string) : nat :=
  match s with
  | EmptyString => 0
  | String c s' => (if (nat_of_ascii c <? 128)%nat then 1 else 2) + utf8_size s'
  end.

End PyStr.

(** ** Python dicts and JSON values *)

Module Dict.

Section WithValues.
Context {V : Type}.

(** [d.get(k)] *)
Fixpoint get (k : string) (d : list (string * V)) : option V :=
  match d with
  | [] => None
  | (k', v) :: d' => if String.eqb k k' then Some v else get k d'
  end.

(** [d[k] = v]: an existing key keeps its place, a new one goes last. *)
Fixpoint set (k : string) (v : V) (d : list (string * V)) : list (string * V) :=
  match d with
  | [] => [(k, v)]
  | (k', v') :: d' =>
      if String.eqb k k' then (k, v) :: d' else (k', v') :: set k v d'
  end.

Definition keys (d : list (string * V)) : list string := map fst d.

Definition has_key (k : string) (d : list (string * V)) : bool :=
  match get k d with
  | Some _ => true
  | None => false
  end.

(** [dict(pairs)]: the pairs are set one after the other. *)
Definition of_pairs (pairs : list (string * V)) : list (string * V) :=
  fold_left (fun d kv => set (fst kv) (snd kv) d) pairs [].

(** The number of items stored under [k]. *)
Definition count (k : string) (d : list (string * V)) : nat :=
  List.length (filter (fun kv => String.eqb k (fst kv)) d).

End WithValues.

End Dict.

(** A JSON document, and the Python value [json.load] makes of it. Numbers
    are the integers. *)
#[local] Unset Elimination Schemes.
Inductive json : Type :=
| JNull
| JBool (b : bool)
| JNum (n : Z)
| JStr (s : string)
| JArr (items : list json)
| JObj (members : list (string * json)).
#[local] Set Elimination Schemes.

(** What the JSON decoder builds from a document: every object becomes a
    dict, so of two members with one name the later value is kept, at the
    place of the first. *)
Fixpoint decode (v : json) : json :=
  match v with
  | JArr items => JArr (map decode items)
  | JObj members =>
      JObj (Dict.of_pairs (map (fun m : string * json => let (k, x) := m in (k, decode x)) members))
  | _ => v
  end.

(** Induction on a JSON value, with the property at hand for every item of
    an array and every member of an object. *)
Section JsonInduction.
Variable P : json -> Prop.
Hypothesis P_null : P JNull.
Hypothesis P_bool : forall b, P (JBool b).
Hypothesis P_num : forall n, P (JNum n).
Hypothesis P_str : forall s, P (JStr s).
Hypothesis P_arr : forall items, Forall P items -> P (JArr items).
Hypothesis P_obj :
  forall members, Forall (fun m => P (snd m)) members -> P (JObj members).

Fixpoint json_induction (v : json) : P v :=
  match v with
  | JNull => P_null
  | JBool b => P_bool b
  | JNum n => P_num n
  | JStr s => P_str s
  | JArr items =>
      P_arr items
        ((fix all (l : list json) : Forall P l :=
            match l with
            | [] => Forall_nil P
            | x :: l' => Forall_cons x (json_induction x) (all l')
            end) items)
  | JObj members =>
      P_obj members
        ((fix all (l : list (string * json)) : Forall (fun m => P (snd m)) l :=
            match l with
            | [] => Forall_nil _
            | m :: l' =>
                Forall_cons m
                  (match m return P (snd m) with (k, x) => json_induction x end)
                  (all l')
            end) members)
  end.
End JsonInduction.

(** ** Exceptions and outcomes *)

Inductive exn : Type :=
| FileNotFoundError
| FileExistsError
| IsADirectoryError
| NotADirectoryError
| JSONDecodeError
| TypeError
| KeyError
| AttributeError
| UnicodeDecodeError.

Inductive outcome (A : Type) : Type :=
| Return (a : A)
| Raise (e : exn).

Arguments Return {A} a.
Arguments Raise {A} e.

Definition and_then {A B : Type} (o : outcome A) (k : A -> outcome B) : outcome B :=
  match o with
  | Return a => k a
  | Raise e => Raise e
  end.

(** ** The files below PAPER_DIR *)

Module Fs.

(** What a regular file named papers_info.json holds: text that is no
    JSON document (the empty text included), which [json.load] rejects
    with a JSONDecodeError; the text of a JSON document; or bytes that are
    no text at all in the encoding [open] reads with, on which
    [json.load] fails with a UnicodeDecodeError as soon as it reads. *)
Inductive content : Type :=
| Unparseable
| Document (v : json)
| Undecodable.

(** What a directory holds under the name papers_info.json. *)
Inductive file_node : Type :=
| Regular (c : content)
| Subdir.

(** An entry of PAPER_DIR: a directory, with what it holds under the name
    papers_info.json if anything, or something that is not a directory. *)
Inductive entry : Type :=
| NotDir
| Directory (info : option file_node).

(** PAPER_DIR is missing ([None]) or a directory, whose entries are
    listed in the order [os.listdir] enumerates them. The names of the
    entries are single components of a path. *)
Definition fs : Type := option (list (string * entry)).

(** A name that is one component of a path, so that
    [os.path.join(PAPER_DIR, name)] is the entry of PAPER_DIR of that name
    and no other place: not empty, not "." or "..", without "/" and without
    the NUL character, and of at most 255 bytes, the longest name a
    directory takes. *)
Definition plain_name (name : string) : bool :=
  negb (String.eqb name "") && negb (String.eqb name ".")
  && negb (String.eqb name "..") && negb (PyStr.contains "/" name)
  && negb (PyStr.contains (String (ascii_of_nat 0) EmptyString) name)
  && (PyStr.utf8_size name <=? 255)%nat.

Inductive path : Type :=
| PAPER_DIR                   (* the directory "papers" *)
| TopicPath (name : string)   (* os.path.join(PAPER_DIR, name) *)
| InfoPath (name : string).   (* os.path.join(PAPER_DIR, name, "papers_info.json") *)

Inductive kind : Type := KFile | KDir.

(** The entry of PAPER_DIR of the name [name], for a [plain_name]. *)
Definition lookup (name : string) (s : fs) : option entry :=
  match s with
  | None => None
  | Some entries => Dict.get name entries
  end.

(** What is at a path, if anything; the name in the path is a
    [plain_name]. *)
Definition stat (p : path) (s : fs) : option kind :=
  match p with
  | PAPER_DIR => match s with None => None | Some _ => Some KDir end
  | TopicPath name =>
      match lookup name s with
      | Some NotDir => Some KFile
      | Some (Directory _) => Some KDir
      | None => None
      end
  | InfoPath name =>
      match lookup name s with
      | Some (Directory (Some (Regular _))) => Some KFile
      | Some (Directory (Some Subdir)) => Some KDir
      | _ => None
      end
  end.

(** An operation on the files. *)
Definition IO (A : Type) : Type := fs -> outcome A * fs.

Definition ret {A : Type} (a : A) : IO A := fun s => (Return a, s).

Definition bind {A B : Type} (m : IO A) (k : A -> IO B) : IO B :=
  fun s =>
    match m s with
    | (Return a, s') => k a s'
    | (Raise e, s') => (Raise e, s')
    end.

Definition lift {A : Type} (o : outcome A) : IO A := fun s => (o, s).

(** [try: body except (the exceptions [catches] accepts): handler] *)
Definition try_except {A : Type} (body : IO A) (catches : exn -> bool)
           (handler : IO A) : IO A :=
  fun s =>
    match body s with
    | (Return a, s') => (Return a, s')
    | (Raise e, s') => if catches e then handler s' else (Raise e, s')
    end.

Definition os_path_exists (p : path) : IO bool :=
  fun s => (Return (match stat p s with Some _ => true | None => false end), s).

Definition os_path_isdir (p : path) : IO bool :=
  fun s => (Return (match stat p s with Some KDir => true | _ => false end), s).

Definition os_path_isfile (p : path) : IO bool :=
  fun s => (Return (match stat p s with Some KFile => true | _ => false end), s).

(** [os.listdir(PAPER_DIR)] *)
Definition os_listdir : IO (list string) :=
  fun s =>
    match s with
    | None => (Raise FileNotFoundError, s)
    | Some entries => (Return (map fst entries), s)
    end.

(** [os.makedirs(os.path.join(PAPER_DIR, name), exist_ok=True)] for a
    [plain_name]: PAPER_DIR is made if it is missing, then the directory.
    Where a new directory comes in the enumeration of [os.listdir] is up
    to the file system; it is put last here, and no property below says
    where it comes. *)
Definition os_makedirs (name : string) : IO unit :=
  fun s =>
    match s with
    | None => (Return tt, Some [(name, Directory None)])
    | Some entries =>
        match Dict.get name entries with
        | None => (Return tt, Some (entries ++ [(name, Directory None)])%list)
        | Some (Directory _) => (Return tt, s)
        | Some NotDir => (Raise FileExistsError, s)
        end
    end.

(** [open(os.path.join(PAPER_DIR, name, "papers_info.json"), "r")],
    giving the text of the file. *)
Definition open_r (name : string) : IO content :=
  fun s =>
    match lookup name s with
    | None => (Raise FileNotFoundError, s)
    | Some NotDir => (Raise NotADirectoryError, s)
    | Some (Directory None) => (Raise FileNotFoundError, s)
    | Some (Directory (Some Subdir)) => (Raise IsADirectoryError, s)
    | Some (Directory (Some (Regular c))) => (Return c, s)
    end.

(** [json.load(f)] on what a file holds: the file is read, which fails
    on bytes that are no text, and the text is parsed. *)
Definition json_load (c : content) : outcome json :=
  match c with
  | Undecodable => Raise UnicodeDecodeError
  | Unparseable => Raise JSONDecodeError
  | Document v => Return (decode v)
  end.

(** [with open(os.path.join(PAPER_DIR, name, "papers_info.json"), "w") as f:
    json.dump(v, f, indent=2)]: the file is created or replaced as a
    whole. *)
Definition json_dump_w (name : string) (v : json) : IO unit :=
  fun s =>
    match s with
    | None => (Raise FileNotFoundError, s)
    | Some entries =>
        match Dict.get name entries with
        | None => (Raise FileNotFoundError, s)
        | Some NotDir => (Raise NotADirectoryError, s)
        | Some (Directory (Some Subdir)) => (Raise IsADirectoryError, s)
        | Some (Directory _) =>
            (Return tt,
             Some (Dict.set name (Directory (Some (Regular (Document v)))) entries))
        end
    end.

End Fs.

Import Fs.

Declare Scope io_scope.
Delimit Scope io_scope with io.
Notation "x <- m ;; k" := (bind m (fun x => k))
  (at level 61, m at next level, right associativity) : io_scope.
Notation "m ;; k" := (bind m (fun _ => k))
  (at level 61, right associativity) : io_scope.

Local Open Scope io_scope.

(** ** Operations on Python values the server uses *)

(** [v[key] = x] for a string [key]. *)
Definition py_setitem (v : json) (key : string) (x : json) : outcome json :=
  match v with
  | JObj d => Return (JObj (Dict.set key x d))
  | _ => Raise TypeError
  end.

(** [v[key]] for a string [key]. *)
Definition py_getitem (v : json) (key : string) : outcome json :=
  match v with
  | JObj d =>
      match Dict.get key d with
      | Some x => Return x
      | None => Raise KeyError
      end
  | _ => Raise TypeError
  end.

(** [key in v] for a string [key]: a key of a dict, an item of a list, a
    substring of a string. *)
Definition py_contains (key : string) (v : json) : outcome bool :=
  match v with
  | JObj d => Return (Dict.has_key key d)
  | JArr items =>
      Return (existsb (fun x => match x with JStr s => String.eqb s key | _ => false end)
                      items)
  | JStr s => Return (PyStr.contains key s)
  | _ => Raise TypeError
  end.

(** [len(v)] *)
Definition py_len (v : json) : outcome nat :=
  match v with
  | JObj d => Return (List.length d)
  | JArr items => Return (List.length items)
  | JStr s => Return (String.length s)
  | _ => Raise TypeError
  end.

(** [v.items()] *)
Definition py_items (v : json) : outcome (list (string * json)) :=
  match v with
  | JObj d => Return d
  | _ => Raise AttributeError
  end.

Fixpoint all_strings (items : list json) : option (list string) :=
  match items with
  | [] => Some []
  | JStr s :: rest =>
      match all_strings rest with
      | Some ss => Some (s :: ss)
      | None => None
      end
  | _ :: _ => None
  end.

(** [sep.join(v)]: [v] is iterated, and every item has to be a string. *)
Definition py_join (sep : string) (v : json) : outcome string :=
  match v with
  | JArr items =>
      match all_strings items with
      | Some ss => Return (PyStr.join sep ss)
      | None => Raise TypeError
      end
  | JStr s => Return (PyStr.join sep (PyStr.chars s))
  | JObj d => Return (PyStr.join sep (Dict.keys d))
  | _ => Raise TypeError
  end.

(** [v[:n]]; a dict refuses the slice (with a KeyError from Python 3.12 on). *)
Definition py_slice_to (n : nat) (v : json) : outcome json :=
  match v with
  | JStr s => Return (JStr (PyStr.slice_to n s))
  | JArr items => Return (JArr (firstn n items))
  | _ => Raise TypeError
  end.

Definition nl : string := String (ascii_of_nat 10) EmptyString.

(** ** The server *)

(** A result of the arXiv search, as far as the server reads it. *)
Record Paper : Type := {
  get_short_id : string;        (* paper.get_short_id() *)
  title : string;               (* paper.title *)
  authors : list string;        (* [author.name for author in paper.authors] *)
  summary : string;             (* paper.summary *)
  pdf_url : string;             (* paper.pdf_url *)
  published : string            (* str(paper.published.date()) *)
}.

Definition paper_info (paper : Paper) : json :=
  JObj [ ("title", JStr (title paper));
         ("authors", JArr (map JStr (authors paper)));
         ("summary", JStr (summary paper));
         ("pdf_url", JStr (pdf_url paper));
         ("published", JStr (published paper)) ].

(** The loop of [search_papers] over the results. *)
Fixpoint process_papers (papers : list Paper) (paper_ids : list string)
         (papers_info : json) : outcome (list string * json) :=
  match papers with
  | [] => Return (paper_ids, papers_info)
  | paper :: rest =>
      let paper_ids := (paper_ids ++ [get_short_id paper])%list in
      and_then (py_setitem papers_info (get_short_id paper) (paper_info paper))
               (fun papers_info => process_papers rest paper_ids papers_info)
  end.

(** [papers] is what [client.results(search)] yields for the topic, at most
    [max_results] results, in the order of the search. *)
Definition search_papers (topic : string) (papers : list Paper) : IO (list string) :=
  let path := PyStr.replace " " "_" (PyStr.lower topic) in
  os_makedirs path ;;
  papers_info <-
    try_except (json_file <- open_r path ;; lift (json_load json_file))
               (fun e => match e with
                         | FileNotFoundError | JSONDecodeError => true
                         | _ => false
                         end)
               (ret (JObj [])) ;;
  processed <- lift (process_papers papers [] papers_info) ;;
  json_dump_w path (snd processed) ;;
  ret (fst processed).

Section Lookup.

(** [json.dumps(v, indent=2)], the text of a JSON value. *)
Variable json_dumps : json -> string.

(** The loop of [extract_info] over the entries of PAPER_DIR; what is
    left when the loop ends is the final return. *)
Fixpoint extract_info_from (paper_id : string) (items : list string) : IO string :=
  match items with
  | [] => ret ("There's no saved information related to paper " ++ paper_id ++ ".")
  | item :: rest =>
      is_dir <- os_path_isdir (TopicPath item) ;;
      if is_dir : bool then
        is_file <- os_path_isfile (InfoPath item) ;;
        if is_file : bool then
          found <-
            try_except
              (json_file <- open_r item ;;
               papers_info <- lift (json_load json_file) ;;
               present <- lift (py_contains paper_id papers_info) ;;
               if present : bool then
                 info <- lift (py_getitem papers_info paper_id) ;;
                 ret (Some (json_dumps info))
               else ret None)
              (fun e => match e with
                        | FileNotFoundError | JSONDecodeError => true
                        | _ => false
                        end)
              (ret None) ;;
          match found with
          | Some text => ret text
          | None => extract_info_from paper_id rest
          end
        else extract_info_from paper_id rest
      else extract_info_from paper_id rest
  end.

Definition extract_info (paper_id : string) : IO string :=
  items <- os_listdir ;;
  extract_info_from paper_id items.

End Lookup.

(** The loop of [get_available_folders] over the entries of PAPER_DIR. *)
Fixpoint collect_folders (entries : list string) (folders : list string)
  : IO (list string) :=
  match entries with
  | [] => ret folders
  | topic_dir :: rest =>
      is_dir <- os_path_isdir (TopicPath topic_dir) ;;
      if is_dir : bool then
        has_file <- os_path_exists (InfoPath topic_dir) ;;
        if has_file : bool then collect_folders rest (folders ++ [topic_dir])%list
        else collect_folders rest folders
      else collect_folders rest folders
  end.

Definition get_available_folders : IO string :=
  root_exists <- os_path_exists PAPER_DIR ;;
  folders <-
    (if root_exists : bool then
       entries <- os_listdir ;; collect_folders entries []
     else ret []) ;;
  let content := "# Available Topics" ++ nl ++ nl in
  match folders with
  | [] => ret (content ++ "No topics found." ++ nl)
  | _ :: _ =>
      let content :=
        fold_left (fun content folder => content ++ "- " ++ folder ++ nl)
                  folders content in
      ret (content ++ nl ++ "Use @" ++ last folders "" ++
           " to access papers in that topic." ++ nl)
  end.

Section Rendering.

(** [str(v)], the text an f-string puts for a value that is not a
    string. *)
Variable py_str : json -> string.

(** [f"{v}"] *)
Definition fmt (v : json) : string :=
  match v with
  | JStr s => s
  | _ => py_str v
  end.

(** One turn of the loop of [get_topic_papers]. *)
Definition render_paper (paper_id : string) (paper_info : json)
           (content : string) : outcome string :=
  and_then (py_getitem paper_info "title") (fun title =>
  let content := content ++ "## " ++ fmt title ++ nl in
  let content := content ++ "- **Paper ID**: " ++ paper_id ++ nl in
  and_then (py_getitem paper_info "authors") (fun authors =>
  and_then (py_join ", " authors) (fun joined =>
  let content := content ++ "- **Authors**: " ++ joined ++ nl in
  and_then (py_getitem paper_info "published") (fun published =>
  let content := content ++ "- **Published**: " ++ fmt published ++ nl in
  and_then (py_getitem paper_info "pdf_url") (fun pdf_url =>
  let content :=
    content ++ "- **PDF URL**: [" ++ fmt pdf_url ++ "](" ++ fmt pdf_url ++ ")"
            ++ nl ++ nl in
  and_then (py_getitem paper_info "summary") (fun summary =>
  and_then (py_slice_to 500 summary) (fun shown =>
  let content := content ++ "### Summary" ++ nl ++ fmt shown ++ "..." ++ nl ++ nl in
  let content := content ++ "---" ++ nl ++ nl in
  Return content))))))).

Fixpoint render_papers (items : list (string * json)) (content : string)
  : outcome string :=
  match items with
  | [] => Return content
  | (paper_id, paper_info) :: rest =>
      and_then (render_paper paper_id paper_info content)
               (fun content => render_papers rest content)
  end.

Definition get_topic_papers (topic : string) : IO string :=
  let topic_dir := PyStr.replace " " "_" (PyStr.lower topic) in
  let papers_file := InfoPath topic_dir in
  file_exists <- os_path_exists papers_file ;;
  if negb file_exists then
    ret ("# No papers found for topic: " ++ topic ++ nl ++ nl ++
         "Try searching for papers on this topic first.")
  else
    try_except
      (f <- open_r topic_dir ;;
       papers_data <- lift (json_load f) ;;
       let content :=
         "# Papers on " ++ PyStr.title (PyStr.replace "_" " " topic) ++ nl ++ nl in
       total <- lift (py_len papers_data) ;;
       let content := content ++ "Total papers: " ++ PyStr.of_nat total ++ nl ++ nl in
       items <- lift (py_items papers_data) ;;
       lift (render_papers items content))
      (fun e => match e with JSONDecodeError => true | _ => false end)
      (ret ("# Error reading papers data for " ++ topic ++ nl ++ nl ++
            "The papers data file is corrupted.")).

End Rendering.

(** ** Observers used to state the properties *)

(** The name of the directory both [search_papers] and [get_topic_papers]
    derive from a topic. *)
Definition namespace (topic : string) : string :=
  PyStr.replace " " "_" (PyStr.lower topic).

(** The mapping persisted for a namespace, as [json.load] reads it: [None]
    when there is no regular papers_info.json, or it holds no JSON
    object. *)
Definition stored (name : string) (s : fs) : option (list (string * json)) :=
  match lookup name s with
  | Some (Directory (Some (Regular (Document v)))) =>
      match decode v with
      | JObj d => Some d
      | _ => None
      end
  | _ => None
  end.

(** The storage of a namespace is in a state [search_papers] can work on:
    nothing but a directory sits at the directory's path, nothing but a
    regular file of text at the file's, and a file that parses holds an
    object. *)
Definition store_ready (name : string) (s : fs) : bool :=
  match lookup name s with
  | None => true
  | Some NotDir => false
  | Some (Directory None) => true
  | Some (Directory (Some Subdir)) => false
  | Some (Directory (Some (Regular Unparseable))) => true
  | Some (Directory (Some (Regular (Document v)))) =>
      match decode v with
      | JObj _ => true
      | _ => false
      end
  | Some (Directory (Some (Regular Undecodable))) => false
  end.

(** The state in which [search_papers] starts from the empty mapping:
    PAPER_DIR is missing or has no entry of the name, or the entry is a
    directory that has no papers_info.json or has one whose text is no
    JSON document. This is less than the file being absent or failing to
    parse: the file is absent too when something that is no directory has
    the name of the namespace, and it fails to parse too when it is no
    text, and the call raises on both. *)
Definition missing_or_not_json (name : string) (s : fs) : bool :=
  match lookup name s with
  | None => true
  | Some (Directory None) => true
  | Some (Directory (Some (Regular Unparseable))) => true
  | _ => false
  end.



(** The mapping the loop of [search_papers] starts from, where the call
    gets as far as the loop. *)
Definition start_mapping (name : string) (s : fs) : option (list (string * json)) :=
  match lookup name s with
  | None => Some []
  | Some NotDir => None
  | Some (Directory None) => Some []
  | Some (Directory (Some Subdir)) => None
  | Some (Directory (Some (Regular Unparseable))) => Some []
  | Some (Directory (Some (Regular (Document v)))) =>
      match decode v with
      | JObj d => Some d
      | _ => None
      end
  | Some (Directory (Some (Regular Undecodable))) => None
  end.

(** The records of [papers] set one after the other into [d]. *)
Definition upsert (papers : list Paper) (d : list (string * json))
  : list (string * json) :=
  fold_left (fun d paper => Dict.set (get_short_id paper) (paper_info paper) d)
            papers d.

(** The files after one search for each list of results in [calls], all on
    one topic. *)
Definition after_searches (topic : string) (calls : list (list Paper)) (s : fs) : fs :=
  fold_left (fun s papers => snd (search_papers topic papers s)) calls s.

(** The file system in which the namespace [name] holds the mapping [d]. *)
Definition with_mapping (name : string) (d : list (string * json)) (s : fs) : fs :=
  Some (Dict.set name (Directory (Some (Regular (Document (JObj d)))))
                 (match s with None => [] | Some entries => entries end)).

(** A dict as the decoder leaves it: no key twice, every value decoded. *)
Definition normal (d : list (string * json)) : Prop :=
  NoDup (Dict.keys d) /\ Forall (fun kv => decode (snd kv) = snd kv) d.

(** What rendering can raise: a TypeError or a KeyError, and so nothing the
    handler of [get_topic_papers] takes for a corrupt file. *)
Definition lookup_error (e : exn) : Prop := e = TypeError \/ e = KeyError.

(** [sub] occurs in [s]. *)
Definition occurs (sub s : string) : Prop :=
  exists before after, s = before ++ sub ++ after.

(** A stored record [get_topic_papers] can render: a dict with the five
    fields, authors that can be joined and a summary that can be sliced. *)
Definition record_ok (v : json) : bool :=
  match v with
  | JObj d =>
      Dict.has_key "title" d
      && match Dict.get "authors" d with
         | Some (JArr items) =>
             match all_strings items with Some _ => true | None => false end
         | Some (JStr _) | Some (JObj _) => true
         | _ => false
         end
      && Dict.has_key "published" d
      && Dict.has_key "pdf_url" d
      && match Dict.get "summary" d with
         | Some (JStr _) | Some (JArr _) => true
         | _ => false
         end
  | _ => false
  end.

(** An entry of PAPER_DIR that [get_available_folders] lists: a directory
    that holds something under the name papers_info.json. *)
Definition qualifies (s : fs) (name : string) : bool :=
  match stat (TopicPath name) s, stat (InfoPath name) s with
  | Some KDir, Some _ => true
  | _, _ => false
  end.

(** The names [os.listdir(PAPER_DIR)] enumerates, none if PAPER_DIR is
    missing. *)
Definition entry_names (s : fs) : list string :=
  match s with
  | None => []
  | Some entries => map fst entries
  end.

Definition qualifying (s : fs) : list string :=
  filter (qualifies s) (entry_names s).

(** The document [get_available_folders] makes of the listed names: a
    line for each, in their order. *)
Definition listing (folders : list string) : string :=
  match folders with
  | [] => "# Available Topics" ++ nl ++ nl ++ "No topics found." ++ nl
  | _ :: _ =>
      "# Available Topics" ++ nl ++ nl
      ++ fold_right (fun folder rest => "- " ++ folder ++ nl ++ rest) "" folders
      ++ nl ++ "Use @" ++ last folders "" ++ " to access papers in that topic." ++ nl
  end.

(** The loop of [extract_info] passes over the entry [name]: it is no
    directory, or it has no regular file papers_info.json, or the text of
    the file is no JSON document, or [paper_id in papers_info] is false
    for what [json.load] reads from it. A file that is no text, and one
    that holds [null], a number or a boolean, are not passed over: the
    lookup raises on them. *)
Definition not_found_in (paper_id : string) (s : fs) (name : string) : bool :=
  match lookup name s with
  | Some (Directory (Some (Regular (Document v)))) =>
      match py_contains paper_id (decode v) with
      | Return false => true
      | _ => false
      end
  | Some (Directory (Some (Regular Undecodable))) => false
  | _ => true
  end.

(** The part of the rendered document that shows a summary. *)
Definition summary_block (shown : string) : string :=
  "### Summary" ++ nl ++ shown ++ "..." ++ nl ++ nl.

(** A name is listed when the document of [get_available_folders] has its
    line. *)
Definition listed (name : string) (s : fs) : Prop :=
  exists out s',
    get_available_folders s = (Return out, s') /\ occurs ("- " ++ name ++ nl) out.

(** Two states of PAPER_DIR with the same entries, in whatever order
    [os.listdir] enumerates them in each. *)
Definition same_entries (s1 s2 : fs) : Prop :=
  forall name, lookup name s1 = lookup name s2.

(** The entry [name] holds a papers_info.json that [json.load] accepts. *)
Definition has_valid_file (name : string) (s : fs) : Prop :=
  exists v, lookup name s = Some (Directory (Some (Regular (Document v)))).

(** Sample data. *)
Definition paper_A : Paper :=
  {| get_short_id := "2401.00001v1";
     title := "On Qubits";
     authors := ["A. Author"; "B. Author"];
     summary := "We study qubits.";
     pdf_url := "http://arxiv.org/pdf/2401.00001v1";
     published := "2024-01-01" |}.

Definition paper_B : Paper :=
  {| get_short_id := "2402.00002v3";
     title := "On Gates";
     authors := ["C. Author"];
     summary := "We study gates.";
     pdf_url := "http://arxiv.org/pdf/2402.00002v3";
     published := "2024-02-02" |}.

(** An older record of [paper_A], with a field of its own. *)
Definition sample_mapping : list (string * json) :=
  [ ("2401.00001v1",
     JObj [ ("title", JStr "Draft");
            ("authors", JArr [JStr "A. Author"]);
            ("summary", JStr "Old.");
            ("pdf_url", JStr "http://arxiv.org/pdf/2401.00001v0");
            ("published", JStr "2023-12-31");
            ("note", JStr "kept by hand") ]) ].

(** PAPER_DIR with a stray file, a namespace whose file does not parse, and
    a namespace that holds [sample_mapping]. *)
Definition sample_fs : fs :=
  Some [ ("notes.txt", NotDir);
         ("broken", Directory (Some (Regular Unparseable)));
         ("quantum_computing",
          Directory (Some (Regular (Document (JObj sample_mapping))))) ].

(** A summary of 600 characters, and a result that has it. *)
Definition long_text : string :=
  String.concat EmptyString (repeat "0123456789" 60).

Definition paper_long : Paper :=
  {| get_short_id := "2403.00003v1";
     title := "On Length";
     authors := ["D. Author"];
     summary := long_text;
     pdf_url := "http://arxiv.org/pdf/2403.00003v1";
     published := "2024-03-03" |}.

(** PAPER_DIR after a search that found [paper_A] and [paper_long]. *)
Definition searched_fs : fs :=
  Some [ ("quantum_computing",
          Directory (Some (Regular (Document (JObj
            [ (get_short_id paper_A, paper_info paper_A);
              (get_short_id paper_long, paper_info paper_long) ]))))) ].

(** PAPER_DIR with one namespace, whose file does not parse. *)
Definition broken_fs : fs :=
  Some [ ("broken", Directory (Some (Regular Unparseable))) ].


(** PAPER_DIR with a namespace whose file is no text, enumerated before
    the namespace that holds [sample_mapping]. *)
Definition undecodable_first_fs : fs :=
  Some [ ("broken", Directory (Some (Regular Undecodable)));
         ("quantum_computing",
          Directory (Some (Regular (Document (JObj sample_mapping))))) ].

(** The last of [papers] that has the id [k]. *)
Fixpoint last_with_id (k : string) (papers : list Paper) : option Paper :=
  match papers with
  | [] => None
  | p :: rest =>
      match last_with_id k rest with
      | Some q => Some q
      | None => if String.eqb (get_short_id p) k then Some p else None
      end
  end.

(** A later version of [paper_A]: the same id, other fields. *)
Definition paper_A_revised : Paper :=
  {| get_short_id := "2401.00001v1";
     title := "On Qubits, Revised";
     authors := ["A. Author"];
     summary := "We study qubits again.";
     pdf_url := "http://arxiv.org/pdf/2401.00001v1";
     published := "2024-01-15" |}.

(** The part of the rendered document for a record that [search_papers]
    built from [paper]. *)
Definition paper_block (paper : Paper) : string :=
  "## " ++ title paper ++ nl
  ++ "- **Paper ID**: " ++ get_short_id paper ++ nl
  ++ "- **Authors**: " ++ PyStr.join ", " (authors paper) ++ nl
  ++ "- **Published**: " ++ published paper ++ nl
  ++ "- **PDF URL**: [" ++ pdf_url paper ++ "](" ++ pdf_url paper ++ ")" ++ nl ++ nl
  ++ "### Summary" ++ nl ++ substring 0 500 (summary paper) ++ "..." ++ nl ++ nl
  ++ "---" ++ nl ++ nl.

(** The first lines of the rendered document of a topic with [total]
    records. *)
Definition topic_header (topic : string) (total : nat) : string :=
  "# Papers on " ++ PyStr.title (PyStr.replace "_" " " topic) ++ nl ++ nl
  ++ "Total papers: " ++ PyStr.of_nat total ++ nl ++ nl.

(** PAPER_DIR with a namespace whose file holds an array with an id in it,
    and one whose file holds [null]. *)
Definition odd_fs : fs :=
  Some [ ("listed", Directory (Some (Regular (Document (JArr [JStr "2401.00001v1"])))));
         ("empty", Directory (Some (Regular (Document JNull)))) ].

(** ** The remote services and the document reader *)

(** The tools that forward a query to a remote service, and
    [search_from_document], which makes the query from a file. What is
    outside the server is taken as given: the answers of the services, the
    text PyPDF2 extracts from the pages of a PDF, and the decoding of
    UTF-8. *)
Module Net.

Inductive error : Type :=
| ValueError
| UnicodeDecodeError
| PdfReadError
| ConnectionError
| HTTPError
| ResponseJSONDecodeError.

Inductive result (A : Type) : Type :=
| Ok (a : A)
| Err (e : error).

Arguments Ok {A} a.
Arguments Err {A} e.

Inductive method : Type := GET | POST.

Record request : Type := {
  verb : method;
  url : string;
  json_body : option json;                 (* json=payload *)
  headers : list (string * string);
  cookies : list (string * string)
}.

(** The body of an answer, as [response.json()] takes it: the text of a
    JSON document, or something it rejects. *)
Inductive body : Type :=
| NotJson
| Json (v : json).

Record response : Type := {
  status_code : nat;
  text : body
}.

(** A call of the server that may send requests: from the requests the
    server has made so far, the latest last, to a result and the requests
    made then. A request is one call of [requests.post] or
    [requests.get]. *)
Definition Net (A : Type) : Type := list request -> result A * list request.

Definition ret {A : Type} (a : A) : Net A := fun sent => (Ok a, sent).

Definition raise {A : Type} (e : error) : Net A := fun sent => (Err e, sent).

Definition bind {A B : Type} (m : Net A) (k : A -> Net B) : Net B :=
  fun sent =>
    match m sent with
    | (Ok a, sent') => k a sent'
    | (Err e, sent') => (Err e, sent')
    end.

Section Services.

(** What the services answer to a request, given the requests sent before
    it; [None] when the connection fails. An answer is the one
    [requests] hands over in the end, redirections followed. A service
    that accepts the connection and stays silent keeps [requests.post]
    waiting, as no timeout is given: such a call has no result, and the
    properties below are about the calls that have one. *)
Variable service : list request -> request -> option response.

Definition send (r : request) : Net response :=
  fun sent =>
    match service sent r with
    | Some answer => (Ok answer, sent ++ [r])
    | None => (Err ConnectionError, sent ++ [r])
    end%list.

(** [requests.post(url, json=payload, headers=headers, cookies=cookies)] *)
Definition requests_post (url : string) (payload : json)
           (headers cookies : list (string * string)) : Net response :=
  send {| verb := POST; url := url; json_body := Some payload;
          headers := headers; cookies := cookies |}.

(** [requests.get(url)] *)
Definition requests_get (url : string) : Net response :=
  send {| verb := GET; url := url; json_body := None; headers := []; cookies := [] |}.

(** [response.raise_for_status()] *)
Definition raise_for_status (r : response) : Net unit :=
  if ((400 <=? status_code r) && (status_code r <? 600))%nat
  then raise HTTPError else ret tt.

(** [response.json()] *)
Definition response_json (r : response) : Net json :=
  match text r with
  | NotJson => raise ResponseJSONDecodeError
  | Json v => ret (decode v)
  end.

End Services.

End Net.

Declare Scope net_scope.
Delimit Scope net_scope with net.
Notation "x <- m ;; k" := (Net.bind m (fun x => k))
  (at level 61, m at next level, right associativity) : net_scope.
Notation "m ;; k" := (Net.bind m (fun _ => k))
  (at level 61, right associativity) : net_scope.

Section RemoteTools.

Variable service : list Net.request -> Net.request -> option Net.response.

(** The texts [page.extract_text()] gives for the pages of a PDF, or
    [None] when PyPDF2 cannot read it. *)
Variable pdf_page_texts : list Byte.byte -> option (list string).

(** [file_bytes.decode("utf-8")], [None] when the bytes are not UTF-8. *)
Variable utf8_decode : list Byte.byte -> option string.

Definition hybrid_search (query : string) (top_k : Z) : Net.Net json :=
  (let headers := [("Content-Type", "application/json")] in
   let payload := JObj [("query", JStr query); ("limit", JNum top_k)] in
   let cookies := [("UUID", "jeet09")] in
   response <-
     Net.requests_post service
       "https://search-vector-service.apps.prod.cirrostratus.org/hybridsearch"
       payload headers cookies ;;
   Net.raise_for_status response ;;
   Net.response_json response)%net.

Definition semantic_search (query : string) (top_k : Z) : Net.Net json :=
  (let headers := [("Content-Type", "application/json")] in
   let payload := JObj [("query", JStr query); ("limit", JNum top_k)] in
   let cookies := [("UUID", "jeet09")] in
   response <-
     Net.requests_post service
       "https://search-vector-service.apps.prod.cirrostratus.org/semanticsearch"
       payload headers cookies ;;
   Net.raise_for_status response ;;
   Net.response_json response)%net.

Definition lexical_search (query : string) (top_k : Z) : Net.Net json :=
  (let headers := [("Content-Type", "application/json")] in
   let payload := JObj [("query", JStr query); ("limit", JNum top_k)] in
   let cookies := [("UUID", "jeet09")] in
   response <-
     Net.requests_post service
       "https://search-vector-service.apps.prod.cirrostratus.org/lexicalsearch"
       payload headers cookies ;;
   Net.raise_for_status response ;;
   Net.response_json response)%net.

Definition jstor_basic_search (query : string) (top_k : Z) : Net.Net json :=
  (let headers := [("Content-Type", "application/json")] in
   let payload := JObj [("query", JStr query); ("limit", JNum top_k)] in
   let cookies := [("UUID", "jeet09")] in
   response <-
     Net.requests_post service
       "https://search3.apps.prod.cirrostratus.org/v3.0/jstor/basic"
       payload headers cookies ;;
   Net.raise_for_status response ;;
   Net.response_json response)%net.

Definition jstor_group_search (query : string) (top_k : Z) : Net.Net json :=
  (let headers := [("Content-Type", "application/json")] in
   let payload := JObj [("query", JStr query); ("limit", JNum top_k)] in
   let cookies := [("UUID", "jeet09")] in
   response <-
     Net.requests_post service
       "https://search3.apps.prod.cirrostratus.org/v3.0/jstor/grouped"
       payload headers cookies ;;
   Net.raise_for_status response ;;
   Net.response_json response)%net.

Definition get_item_metadata (item_id : string) : Net.Net json :=
  (let url := "http://cedar-delivery-service?iid=" ++ item_id in
   response <- Net.requests_get service url ;;
   Net.raise_for_status response ;;
   Net.response_json response)%net.

(** The loop of [search_from_document] over the pages of a PDF. *)
Definition pages_text (page_texts : list string) : string :=
  fold_left (fun text page_text =>
               match page_text with
               | EmptyString => text
               | _ => text ++ page_text ++ " "
               end)
            page_texts EmptyString.

Definition search_from_document (file_bytes : list Byte.byte) (file_type : string)
  : Net.Net json :=
  (text <-
     (if String.eqb (PyStr.lower file_type) "pdf" then
        match pdf_page_texts file_bytes with
        | Some page_texts => Net.ret (pages_text page_texts)
        | None => Net.raise Net.PdfReadError
        end
      else if String.eqb (PyStr.lower file_type) "txt" then
        match utf8_decode file_bytes with
        | Some text => Net.ret text
        | None => Net.raise Net.UnicodeDecodeError
        end
      else Net.raise Net.ValueError) ;;
   hybrid_search text 5)%net.

End RemoteTools.

(** The request the search tools send to [url]. *)
Definition search_request (url query : string) (top_k : Z) : Net.request :=
  {| Net.verb := Net.POST;
     Net.url := url;
     Net.json_body := Some (JObj [("query", JStr query); ("limit", JNum top_k)]);
     Net.headers := [("Content-Type", "application/json")];
     Net.cookies := [("UUID", "jeet09")] |}.

(** What a tool makes of the answer to its request. *)
Definition answer_result (answer : option Net.response) : Net.result json :=
  match answer with
  | None => Net.Err Net.ConnectionError
  | Some r =>
      if ((400 <=? Net.status_code r) && (Net.status_code r <? 600))%nat
      then Net.Err Net.HTTPError
      else match Net.text r with
           | Net.NotJson => Net.Err Net.ResponseJSONDecodeError
           | Net.Json v => Net.Ok (decode v)
           end
  end.

(** The texts of the pages that have any, each followed by a space. *)
Definition spaced_pages (page_texts : list string) : string :=
  fold_right (fun page_text rest => page_text ++ " " ++ rest) EmptyString
    (filter (fun page_text => negb (String.eqb page_text EmptyString)) page_texts).

(** A service that answers every request with status 200 and an empty
    object, and one that answers with status 503. *)
Definition service_ok : list Net.request -> Net.request -> option Net.response :=
  fun _ _ => Some {| Net.status_code := 200; Net.text := Net.Json (JObj []) |}.

Definition service_down : list Net.request -> Net.request -> option Net.response :=
  fun _ _ => Some {| Net.status_code := 503; Net.text := Net.NotJson |}.

(** * Properties *)

(** ** Strings *)

Example lower_quantum_computing :
  PyStr.lower "Quantum Computing" = "quantum computing".
Proof. reflexivity. Qed.

Example title_mixed_case :
  PyStr.title "quantum coMPuting 2nd x-ray" = "Quantum Computing 2Nd X-Ray".
Proof. reflexivity. Qed.

Example join_three : PyStr.join ", " ["a"; "b"; "c"] = "a, b, c".
Proof. reflexivity. Qed.

Example of_nat_lengths : PyStr.of_nat 0 = "0" /\ PyStr.of_nat 120 = "120".
Proof. split; reflexivity. Qed.

Lemma append_assoc (a b c : string) : (a ++ b) ++ c = a ++ b ++ c.
Proof.
  induction a as [|x a IH]; simpl; [reflexivity | now rewrite IH].
Qed.

Lemma append_empty_r (a : string) : a ++ "" = a.
Proof.
  induction a as [|x a IH]; simpl; [reflexivity | now rewrite IH].
Qed.

Lemma occurs_after (sub s before : string) :
  occurs sub s -> occurs sub (before ++ s).
Proof.
  intros (b & a & ->). exists (before ++ b), a. now rewrite append_assoc.
Qed.

Lemma occurs_before (sub s after : string) :
  occurs sub s -> occurs sub (s ++ after).
Proof.
  intros (b & a & ->). exists b, (a ++ after). now rewrite !append_assoc.
Qed.

Lemma substring_all (s : string) (n : nat) :
  String.length s <= n -> substring 0 n s = s.
Proof.
  revert n; induction s as [|c s IH]; intros n Hn.
  - now destruct n.
  - destruct n as [|n]; simpl in *; [lia|].
    rewrite IH; [reflexivity | lia].
Qed.

Lemma substring_length (s : string) (n : nat) :
  n <= String.length s -> String.length (substring 0 n s) = n.
Proof.
  revert n; induction s as [|c s IH]; intros n Hn.
  - destruct n; simpl in *; [reflexivity | lia].
  - destruct n as [|n]; simpl in *; [reflexivity|].
    rewrite IH; [reflexivity | lia].
Qed.

(** ** Dicts *)

Section DictFacts.
Context {V : Type}.
Implicit Types (d : list (string * V)) (k : string) (v : V).

Lemma get_set_same k v d : Dict.get k (Dict.set k v d) = Some v.
Proof.
  induction d as [|[k' v'] d IH]; simpl.
  - now rewrite String.eqb_refl.
  - destruct (String.eqb k k') eqn:E; simpl.
    + now rewrite String.eqb_refl.
    + now rewrite E.
Qed.

Lemma get_set_other k k' v d :
  k' <> k -> Dict.get k' (Dict.set k v d) = Dict.get k' d.
Proof.
  intros Hne. induction d as [|[k0 v0] d IH]; simpl.
  - apply String.eqb_neq in Hne. now rewrite Hne.
  - destruct (String.eqb k k0) eqn:E; simpl.
    + apply String.eqb_eq in E; subst k0.
      apply String.eqb_neq in Hne. now rewrite Hne.
    + now rewrite IH.
Qed.

Lemma get_none_not_in k d : Dict.get k d = None <-> ~ In k (Dict.keys d).
Proof.
  induction d as [|[k' v'] d IH]; simpl.
  - tauto.
  - destruct (String.eqb_spec k k') as [->|Hne].
    + split; [discriminate | intros H; exfalso; apply H; now left].
    + rewrite IH. split; [intros H [E|I]; [congruence | tauto] | tauto].
Qed.


Lemma set_fresh k v d :
  Dict.get k d = None -> Dict.set k v d = (d ++ [(k, v)])%list.
Proof.
  induction d as [|[k' v'] d IH]; simpl; [reflexivity|].
  destruct (String.eqb k k'); [discriminate|].
  intros H. now rewrite IH.
Qed.

Lemma get_app_fresh k v d :
  Dict.get k d = None -> Dict.get k (d ++ [(k, v)])%list = Some v.
Proof.
  intros H. rewrite <- (set_fresh k v d H). apply get_set_same.
Qed.

Lemma set_set k v v' d : Dict.set k v' (Dict.set k v d) = Dict.set k v' d.
Proof.
  induction d as [|[k0 v0] d IH]; simpl.
  - now rewrite String.eqb_refl.
  - destruct (String.eqb k k0) eqn:E; simpl.
    + now rewrite String.eqb_refl.
    + now rewrite E, IH.
Qed.

Lemma keys_set k v d :
  forall k', In k' (Dict.keys (Dict.set k v d)) <-> k' = k \/ In k' (Dict.keys d).
Proof.
  intros k'. induction d as [|[k0 v0] d IH]; simpl.
  - split; [intros [E|[]]; now left | intros [E|[]]; now left].
  - destruct (String.eqb_spec k k0) as [->|Hne]; simpl.
    + split; [intros [E|I]; auto | intros [E|[E|I]]; auto].
    + rewrite IH. tauto.
Qed.

Lemma set_nodup k v d : NoDup (Dict.keys d) -> NoDup (Dict.keys (Dict.set k v d)).
Proof.
  induction d as [|[k0 v0] d IH]; simpl; intros H.
  - constructor; [intros [] | constructor].
  - inversion H as [|? ? Hnotin Hnd]; subst.
    destruct (String.eqb_spec k k0) as [->|Hne]; simpl.
    + now constructor.
    + constructor; [|now apply IH].
      fold (Dict.keys (Dict.set k v d)). rewrite keys_set.
      intros [E|I]; [congruence | contradiction].
Qed.

Lemma count_set k v d :
  NoDup (Dict.keys d) -> Dict.count k (Dict.set k v d) = 1.
Proof.
  unfold Dict.count.
  induction d as [|[k0 v0] d IH]; simpl; intros H.
  - now rewrite String.eqb_refl.
  - inversion H as [|? ? Hnotin Hnd]; subst.
    destruct (String.eqb_spec k k0) as [->|Hne]; simpl.
    + rewrite String.eqb_refl. simpl. f_equal.
      clear - Hnotin. induction d as [|[k1 v1] d IH]; simpl; [reflexivity|].
      simpl in Hnotin.
      destruct (String.eqb_spec k0 k1) as [->|Hne]; [tauto|]. apply IH. tauto.
    + destruct (String.eqb_spec k k0); [congruence|]. now apply IH.
Qed.

Lemma fold_set_nodup (pairs : list (string * V)) d :
  NoDup (Dict.keys d) ->
  NoDup (Dict.keys (fold_left (fun d kv => Dict.set (fst kv) (snd kv) d) pairs d)).
Proof.
  revert d; induction pairs as [|[k v] pairs IH]; simpl; intros d H; [exact H|].
  apply IH. now apply set_nodup.
Qed.

Lemma of_pairs_nodup (pairs : list (string * V)) : NoDup (Dict.keys (Dict.of_pairs pairs)).
Proof. apply fold_set_nodup. constructor. Qed.

Lemma fold_set_values (P : V -> Prop) (pairs : list (string * V)) d :
  Forall (fun kv => P (snd kv)) pairs ->
  Forall (fun kv => P (snd kv)) d ->
  Forall (fun kv => P (snd kv))
         (fold_left (fun d kv => Dict.set (fst kv) (snd kv) d) pairs d).
Proof.
  revert d; induction pairs as [|[k v] pairs IH]; simpl; intros d Hp Hd; [exact Hd|].
  inversion Hp as [|? ? Hv Hrest]; subst. apply IH; [exact Hrest|].
  clear - Hv Hd. induction d as [|[k0 v0] d IH]; simpl.
  - constructor; [exact Hv | constructor].
  - inversion Hd as [|? ? H0 Hd']; subst.
    destruct (String.eqb k k0); constructor; auto.
Qed.

Lemma fold_set_fresh d acc :
  NoDup (Dict.keys (acc ++ d)%list) ->
  fold_left (fun d kv => Dict.set (fst kv) (snd kv) d) d acc = (acc ++ d)%list.
Proof.
  revert acc; induction d as [|[k v] d IH]; simpl; intros acc H.
  - now rewrite app_nil_r.
  - rewrite set_fresh.
    + rewrite IH; rewrite <- app_assoc; [reflexivity | exact H].
    + apply get_none_not_in. unfold Dict.keys in *.
      rewrite map_app in H. simpl in H.
      apply NoDup_remove_2 in H. intros I. apply H.
      apply in_or_app. now left.
Qed.

Lemma of_pairs_nodup_id d : NoDup (Dict.keys d) -> Dict.of_pairs d = d.
Proof. intros H. unfold Dict.of_pairs. now rewrite fold_set_fresh. Qed.

End DictFacts.

(** ** JSON values *)

Example decode_repeated_name :
  decode (JObj [("a", JNum 1); ("b", JNull); ("a", JNum 2)])
  = JObj [("a", JNum 2); ("b", JNull)].
Proof. reflexivity. Qed.


Lemma map_decode_fixed (d : list (string * json)) :
  Forall (fun kv => decode (snd kv) = snd kv) d ->
  map (fun m : string * json => let (k, x) := m in (k, decode x)) d = d.
Proof.
  induction 1 as [|[k x] d Hx _ IH]; simpl; [reflexivity|].
  simpl in Hx. now rewrite Hx, IH.
Qed.

Lemma decode_normal (d : list (string * json)) :
  normal d -> decode (JObj d) = JObj d.
Proof.
  intros [Hnd Hfix]. simpl.
  now rewrite map_decode_fixed, of_pairs_nodup_id.
Qed.

Lemma decode_idempotent (v : json) : decode (decode v) = decode v.
Proof.
  induction v as [| | | |items IH|members IH] using json_induction;
    try reflexivity.
  - simpl. f_equal. rewrite map_map.
    induction IH as [|x l Hx _ IHl]; simpl; [reflexivity | now rewrite Hx, IHl].
  - cbn [decode]. apply decode_normal. split.
    + apply of_pairs_nodup.
    + apply (fold_set_values (fun x => decode x = x)); [|constructor].
      induction IH as [|[k x] l Hx _ IHl]; simpl; constructor; auto.
Qed.

Lemma decode_object (v : json) (d : list (string * json)) :
  decode v = JObj d -> normal d.
Proof.
  intros H. destruct v; try discriminate H.
  simpl in H. injection H as <-. split.
  - apply of_pairs_nodup.
  - apply (fold_set_values (fun x => decode x = x)); [|constructor].
    induction members as [|[k x] l IHl]; simpl; constructor;
      [apply decode_idempotent | exact IHl].
Qed.

Lemma stored_normal (name : string) (s : fs) (d : list (string * json)) :
  stored name s = Some d -> normal d.
Proof.
  unfold stored. intros H.
  destruct (lookup name s) as [[|[[[|v|]|]|]]|]; try discriminate.
  destruct (decode v) eqn:E; try discriminate.
  injection H as <-. now apply decode_object with v.
Qed.

Lemma normal_nil : normal [].
Proof. split; constructor. Qed.

Lemma set_normal (k : string) (v : json) (d : list (string * json)) :
  normal d -> decode v = v -> normal (Dict.set k v d).
Proof.
  intros [Hnd Hfix] Hv. split; [now apply set_nodup|].
  clear Hnd. induction Hfix as [|[k0 v0] d H0 Hd IH]; simpl.
  - constructor; [exact Hv | constructor].
  - destruct (String.eqb k k0); constructor; auto.
Qed.

Lemma decode_paper_info (paper : Paper) : decode (paper_info paper) = paper_info paper.
Proof.
  unfold paper_info. cbn. do 3 f_equal.
  rewrite map_map. simpl. reflexivity.
Qed.

Lemma upsert_normal (papers : list Paper) (d : list (string * json)) :
  normal d -> normal (upsert papers d).
Proof.
  unfold upsert. revert d.
  induction papers as [|p papers IH]; simpl; intros d H; [exact H|].
  apply IH, set_normal; [exact H | apply decode_paper_info].
Qed.

(** ** The Topic Store: [search_papers] *)

Lemma process_papers_run (papers : list Paper) (ids : list string)
      (d : list (string * json)) :
  process_papers papers ids (JObj d)
  = Return ((ids ++ map get_short_id papers)%list, JObj (upsert papers d)).
Proof.
  revert ids d. induction papers as [|p papers IH]; intros ids d; simpl.
  - now rewrite app_nil_r.
  - rewrite IH. now rewrite <- app_assoc.
Qed.

Lemma process_papers_ids (papers : list Paper) (ids : list string) (v : json)
      (r : list string * json) :
  process_papers papers ids v = Return r ->
  fst r = (ids ++ map get_short_id papers)%list.
Proof.
  destruct papers as [|p papers].
  - simpl. intros [= <-]. simpl. now rewrite app_nil_r.
  - destruct v; try discriminate.
    rewrite process_papers_run. now intros [= <-].
Qed.

(** From a state the store can work on, [search_papers] returns the ids of
    the results and leaves the namespace with the start mapping updated by
    the results. *)
Lemma search_papers_run (topic : string) (papers : list Paper) (s : fs)
      (d0 : list (string * json)) :
  start_mapping (namespace topic) s = Some d0 ->
  search_papers topic papers s
  = (Return (map get_short_id papers),
     with_mapping (namespace topic) (upsert papers d0) s).
Proof.
  unfold start_mapping, search_papers, with_mapping.
  fold (namespace topic). generalize (namespace topic) as name. intros name.
  unfold bind, try_except, os_makedirs, open_r, json_dump_w, lift, ret, lookup.
  destruct s as [entries|]; simpl.
  - destruct (Dict.get name entries) as [[|[[[|v|]|]|]]|] eqn:E; simpl;
      try discriminate.
    + (* an unparseable file *)
      intros [= <-]. rewrite E. simpl. rewrite process_papers_run. simpl.
      now rewrite E.
    + (* a document *)
      rewrite E. simpl. destruct (decode v) eqn:Ev; try discriminate.
      intros [= <-]. rewrite process_papers_run. simpl. now rewrite E.
    + (* a directory without the file *)
      intros [= <-]. rewrite E. simpl. rewrite process_papers_run. simpl.
      now rewrite E.
    + (* no entry of that name *)
      intros [= <-]. rewrite (get_app_fresh _ _ _ E). simpl.
      rewrite process_papers_run. simpl. rewrite (get_app_fresh _ _ _ E).
      now rewrite <- (set_fresh _ (Directory None) _ E), set_set.
  - intros [= <-]. rewrite String.eqb_refl. simpl.
    rewrite process_papers_run. simpl. now rewrite String.eqb_refl.
Qed.

Lemma lookup_with_mapping (name : string) (d : list (string * json)) (s : fs) :
  lookup name (with_mapping name d s)
  = Some (Directory (Some (Regular (Document (JObj d))))).
Proof. unfold with_mapping, lookup. apply get_set_same. Qed.

Lemma stored_with_mapping (name : string) (d : list (string * json)) (s : fs) :
  normal d -> stored name (with_mapping name d s) = Some d.
Proof.
  intros H. unfold stored. rewrite lookup_with_mapping.
  now rewrite (decode_normal d H).
Qed.

Lemma start_mapping_with_mapping (name : string) (d : list (string * json)) (s : fs) :
  normal d -> start_mapping name (with_mapping name d s) = Some d.
Proof.
  intros H. unfold start_mapping. rewrite lookup_with_mapping.
  now rewrite (decode_normal d H).
Qed.

Lemma store_ready_start (name : string) (s : fs) :
  store_ready name s = true ->
  exists d0, start_mapping name s = Some d0 /\ normal d0.
Proof.
  unfold store_ready, start_mapping.
  destruct (lookup name s) as [[|[[[|v|]|]|]]|]; try discriminate;
    try (intros _; exists []; split; [reflexivity | apply normal_nil]).
  destruct (decode v) eqn:E; try discriminate.
  intros _. exists members. split; [reflexivity | now apply decode_object with v].
Qed.

Lemma stored_start (name : string) (s : fs) (d : list (string * json)) :
  stored name s = Some d -> start_mapping name s = Some d.
Proof.
  unfold stored, start_mapping.
  now destruct (lookup name s) as [[|[[[|v|]|]|]]|].
Qed.

Lemma missing_start (name : string) (s : fs) :
  missing_or_not_json name s = true -> start_mapping name s = Some [].
Proof.
  unfold missing_or_not_json, start_mapping.
  now destruct (lookup name s) as [[|[[[|v|]|]|]]|].
Qed.

(** Where the store cannot work, a call with a result to store raises. *)
Lemma search_papers_raises (topic : string) (p : Paper) (papers : list Paper) (s : fs) :
  store_ready (namespace topic) s = false ->
  exists e s', search_papers topic (p :: papers) s = (Raise e, s').
Proof.
  unfold store_ready, search_papers.
  fold (namespace topic). generalize (namespace topic) as name. intros name.
  unfold bind, try_except, os_makedirs, open_r, json_dump_w, lift, ret, lookup.
  destruct s as [entries|]; simpl; [|discriminate].
  destruct (Dict.get name entries) as [[|[[[|v|]|]|]]|] eqn:E; simpl;
    try discriminate; intros H.
  - eauto.
  - rewrite E. simpl.
    destruct (decode v); try discriminate H; simpl; eauto.
  - rewrite E. simpl. eauto.
  - rewrite E. simpl. eauto.
Qed.

(** A call with a result to store returns exactly when the store can work. *)
Lemma search_papers_returns_iff_ready (topic : string) (p : Paper)
      (papers : list Paper) (s : fs) :
  (exists ids s', search_papers topic (p :: papers) s = (Return ids, s'))
  <-> store_ready (namespace topic) s = true.
Proof.
  split.
  - intros (ids & s' & Hrun).
    destruct (store_ready (namespace topic) s) eqn:E; [reflexivity|].
    destruct (search_papers_raises topic p papers s E) as (e & s'' & Hraise).
    congruence.
  - intros H. destruct (store_ready_start _ _ H) as (d0 & Hstart & _).
    rewrite (search_papers_run topic (p :: papers) s d0 Hstart). eauto.
Qed.

Lemma upsert_get_other (papers : list Paper) (d : list (string * json)) (k : string) :
  ~ In k (map get_short_id papers) ->
  Dict.get k (upsert papers d) = Dict.get k d.
Proof.
  unfold upsert. revert d.
  induction papers as [|p papers IH]; simpl; intros d H; [reflexivity|].
  rewrite IH by tauto. apply get_set_other. intros ->. tauto.
Qed.

Lemma upsert_keys (papers : list Paper) (d : list (string * json)) (k : string) :
  In k (Dict.keys (upsert papers d))
  <-> In k (map get_short_id papers) \/ In k (Dict.keys d).
Proof.
  unfold upsert. revert d.
  induction papers as [|p papers IH]; simpl; intros d; [tauto|].
  rewrite IH, keys_set. intuition congruence.
Qed.

Lemma upsert_get_input (papers : list Paper) (d : list (string * json))
      (k : string) (v : json) :
  In k (map get_short_id papers) ->
  Dict.get k (upsert papers d) = Some v ->
  exists p, In p papers /\ get_short_id p = k /\ v = paper_info p.
Proof.
  unfold upsert. revert d.
  induction papers as [|p papers IH]; simpl; intros d Hin Hget; [contradiction|].
  destruct (in_dec string_dec k (map get_short_id papers)) as [Hlater|Hnot].
  - destruct (IH _ Hlater Hget) as (q & Hq & Hk & Hv). exists q. auto.
  - fold (upsert papers (Dict.set (get_short_id p) (paper_info p) d)) in Hget.
    rewrite upsert_get_other in Hget by exact Hnot.
    destruct Hin as [Hk|Hin]; [|contradiction]. subst k.
    rewrite get_set_same in Hget. injection Hget as <-. exists p. auto.
Qed.

(** Whenever [search_papers] returns, it returns the ids of the results. *)
Lemma search_papers_return_ids (topic : string) (papers : list Paper) (s s' : fs)
      (ids : list string) :
  search_papers topic papers s = (Return ids, s') ->
  ids = map get_short_id papers.
Proof.
  unfold search_papers.
  generalize (PyStr.replace " " "_" (PyStr.lower topic)) as name. intros name.
  unfold bind, try_except, lift, ret.
  destruct (os_makedirs name s) as [[[]|e] s1]; [|discriminate].
  assert (Hend : forall v s2,
             match process_papers papers [] v with
             | Return a =>
                 match json_dump_w name (snd a) s2 with
                 | (Return _, s3) => (Return (fst a), s3)
                 | (Raise e, s3) => (Raise e, s3)
                 end
             | Raise e => (Raise e, s2)
             end = (Return ids, s') -> ids = map get_short_id papers).
  { intros v s2.
    destruct (process_papers papers [] v) as [r|e] eqn:E; [|discriminate].
    apply process_papers_ids in E. simpl in E.
    destruct (json_dump_w name (snd r) s2) as [[[]|e] s3]; [|discriminate].
    intros [= <- _]. exact E. }
  destruct (open_r name s1) as [[c|e] s2].
  - destruct (json_load c) as [v|e]; [apply Hend|].
    destruct e; try discriminate; apply Hend.
  - destruct e; try discriminate; apply Hend.
Qed.

(** One call from a state the store can work on. *)
Lemma search_papers_ready (topic : string) (papers : list Paper) (s : fs) :
  store_ready (namespace topic) s = true ->
  exists d0,
    start_mapping (namespace topic) s = Some d0 /\ normal d0 /\
    search_papers topic papers s
    = (Return (map get_short_id papers),
       with_mapping (namespace topic) (upsert papers d0) s) /\
    stored (namespace topic) (with_mapping (namespace topic) (upsert papers d0) s)
    = Some (upsert papers d0).
Proof.
  intros H. destruct (store_ready_start _ _ H) as (d0 & Hstart & Hnormal).
  exists d0. split; [assumption|]. split; [assumption|]. split.
  - now apply search_papers_run.
  - apply stored_with_mapping. now apply upsert_normal.
Qed.

(** Two calls in a row on one topic. *)
Lemma search_papers_two_calls (topic : string) (first second : list Paper) (s : fs)
      (d0 : list (string * json)) :
  start_mapping (namespace topic) s = Some d0 ->
  normal d0 ->
  exists s1 s2,
    search_papers topic first s = (Return (map get_short_id first), s1) /\
    search_papers topic second s1 = (Return (map get_short_id second), s2) /\
    stored (namespace topic) s2 = Some (upsert second (upsert first d0)).
Proof.
  intros Hstart Hn.
  set (s1 := with_mapping (namespace topic) (upsert first d0) s).
  assert (Hn1 : normal (upsert first d0)) by now apply upsert_normal.
  assert (Hstart1 : start_mapping (namespace topic) s1 = Some (upsert first d0))
    by now apply start_mapping_with_mapping.
  exists s1, (with_mapping (namespace topic) (upsert second (upsert first d0)) s1).
  split; [|split].
  - now apply search_papers_run.
  - now apply search_papers_run.
  - apply stored_with_mapping. now apply upsert_normal.
Qed.


Lemma last_with_id_some (k : string) (papers : list Paper) :
  In k (map get_short_id papers) -> exists p, last_with_id k papers = Some p.
Proof.
  induction papers as [|q papers IH]; cbn [last_with_id map]; [contradiction|].
  intros [Hk|Hin].
  - destruct (last_with_id k papers) as [r|]; [eauto|].
    subst k. rewrite String.eqb_refl. eauto.
  - destruct (IH Hin) as [p ->]. eauto.
Qed.

Lemma get_upsert (papers : list Paper) (d : list (string * json)) (k : string) :
  Dict.get k (upsert papers d)
  = match last_with_id k papers with
    | Some q => Some (paper_info q)
    | None => Dict.get k d
    end.
Proof.
  unfold upsert. revert d.
  induction papers as [|p papers IH]; intros d; cbn [fold_left last_with_id];
    [reflexivity|].
  rewrite IH. destruct (last_with_id k papers) as [q|]; [reflexivity|].
  destruct (String.eqb_spec (get_short_id p) k) as [<-|Hne].
  - apply get_set_same.
  - apply get_set_other. congruence.
Qed.

(** C1. Calling [search_papers] twice with one topic and one result leaves
    a persisted mapping with exactly one record under the result's id, and
    the fields of that record are those of the result of the second call
    (the same holds when the second result only shares the id of the
    first). A record already stored under the id is replaced as a whole:
    what one call leaves under the id is the record of the five fields of
    the result and nothing else, whatever was there before. The name of
    the namespace is one component of a path, and the store is in a state
    the call can work on. *)
Theorem search_papers_twice_last_write_wins
        (topic : string) (first second : Paper) (s : fs) :
  plain_name (namespace topic) = true ->
  store_ready (namespace topic) s = true ->
  get_short_id first = get_short_id second ->
  (exists s1 s2 d,
      search_papers topic [first] s = (Return [get_short_id first], s1) /\
      search_papers topic [second] s1 = (Return [get_short_id second], s2) /\
      stored (namespace topic) s2 = Some d /\
      Dict.count (get_short_id second) d = 1 /\
      Dict.get (get_short_id second) d
      = Some (JObj [ ("title", JStr (title second));
                     ("authors", JArr (map JStr (authors second)));
                     ("summary", JStr (summary second));
                     ("pdf_url", JStr (pdf_url second));
                     ("published", JStr (published second)) ]))
  /\
  (exists s1 d,
      search_papers topic [first] s = (Return [get_short_id first], s1) /\
      stored (namespace topic) s1 = Some d /\
      Dict.count (get_short_id first) d = 1 /\
      Dict.get (get_short_id first) d
      = Some (JObj [ ("title", JStr (title first));
                     ("authors", JArr (map JStr (authors first)));
                     ("summary", JStr (summary first));
                     ("pdf_url", JStr (pdf_url first));
                     ("published", JStr (published first)) ])).
Proof.
  intros _ Hready Hid. split.
  - destruct (store_ready_start _ _ Hready) as (d0 & Hstart & Hn).
    destruct (search_papers_two_calls topic [first] [second] s d0 Hstart Hn)
      as (s1 & s2 & H1 & H2 & Hst).
    exists s1, s2, (upsert [second] (upsert [first] d0)).
    repeat split; try assumption; unfold upsert; simpl.
    + apply count_set. apply set_nodup, Hn.
    + apply get_set_same.
  - destruct (search_papers_ready topic [first] s Hready) as (d0 & _ & Hn & Hrun & Hst).
    exists (with_mapping (namespace topic) (upsert [first] d0) s), (upsert [first] d0).
    repeat split; try assumption; unfold upsert; simpl.
    + apply count_set, Hn.
    + apply get_set_same.
Qed.

(** One call on a namespace whose file is present and well-formed. *)
Lemma search_papers_keeps (topic : string) (papers : list Paper) (s : fs)
      (d : list (string * json)) :
  stored (namespace topic) s = Some d ->
  exists s' d',
    search_papers topic papers s = (Return (map get_short_id papers), s') /\
    stored (namespace topic) s' = Some d' /\
    (forall k v, Dict.get k d = Some v -> ~ In k (map get_short_id papers) ->
                 Dict.get k d' = Some v) /\
    (forall k, In k (Dict.keys d) -> In k (Dict.keys d')).
Proof.
  intros Hst.
  assert (Hstart : start_mapping (namespace topic) s = Some d) by now apply stored_start.
  assert (Hn : normal d) by now apply stored_normal with (namespace topic) s.
  exists (with_mapping (namespace topic) (upsert papers d) s), (upsert papers d).
  split; [|split; [|split]].
  - now apply search_papers_run.
  - apply stored_with_mapping. now apply upsert_normal.
  - intros k v Hget Hnot. now rewrite upsert_get_other.
  - intros k Hk. apply upsert_keys. now right.
Qed.

(** Any number of calls on such a namespace: no key is lost. *)
Lemma after_searches_keeps_keys (topic : string) (calls : list (list Paper))
      (s : fs) (d : list (string * json)) :
  stored (namespace topic) s = Some d ->
  exists d',
    stored (namespace topic) (after_searches topic calls s) = Some d' /\
    forall k, In k (Dict.keys d) -> In k (Dict.keys d').
Proof.
  unfold after_searches. revert s d.
  induction calls as [|papers calls IH]; intros s d Hst; cbn [fold_left].
  - exists d. auto.
  - destruct (search_papers_keeps topic papers s d Hst) as (s1 & d1 & Hrun & Hst1 & _ & Hk).
    rewrite Hrun. cbn [snd].
    destruct (IH s1 d1 Hst1) as (d' & Hst' & Hk').
    exists d'. auto.
Qed.

(** C2. When the file of a topic's namespace is present and well-formed,
    [search_papers] keeps every stored record whose id is not among the
    results, so no key is ever removed, however many calls follow one
    another; and a call with A followed by a call with B, of another id,
    leaves both A and B in the namespace. *)
Theorem search_papers_keeps_other_records
        (topic : string) (s : fs) (d : list (string * json)) :
  stored (namespace topic) s = Some d ->
  (forall papers, exists s' d',
      search_papers topic papers s = (Return (map get_short_id papers), s') /\
      stored (namespace topic) s' = Some d' /\
      (forall k v, Dict.get k d = Some v -> ~ In k (map get_short_id papers) ->
                   Dict.get k d' = Some v) /\
      (forall k, In k (Dict.keys d) -> In k (Dict.keys d')))
  /\
  (forall calls, exists d',
      stored (namespace topic) (after_searches topic calls s) = Some d' /\
      forall k, In k (Dict.keys d) -> In k (Dict.keys d'))
  /\
  (forall A B, get_short_id A <> get_short_id B -> exists s1 s2 d2,
      search_papers topic [A] s = (Return [get_short_id A], s1) /\
      search_papers topic [B] s1 = (Return [get_short_id B], s2) /\
      stored (namespace topic) s2 = Some d2 /\
      Dict.get (get_short_id A) d2 = Some (paper_info A) /\
      Dict.get (get_short_id B) d2 = Some (paper_info B) /\
      (forall k, In k (Dict.keys d) -> In k (Dict.keys d2))).
Proof.
  intros Hst. split; [|split].
  - intros papers. now apply search_papers_keeps.
  - intros calls. now apply after_searches_keeps_keys.
  - intros A B Hne.
    assert (Hstart : start_mapping (namespace topic) s = Some d) by now apply stored_start.
    assert (Hn : normal d) by now apply stored_normal with (namespace topic) s.
    destruct (search_papers_two_calls topic [A] [B] s d Hstart Hn)
      as (s1 & s2 & H1 & H2 & Hst2).
    exists s1, s2, (upsert [B] (upsert [A] d)).
    repeat split; try assumption; unfold upsert; simpl.
    + rewrite get_set_other by congruence. apply get_set_same.
    + apply get_set_same.
    + intros k Hk. fold (Dict.keys (Dict.set (get_short_id B) (paper_info B)
                                     (Dict.set (get_short_id A) (paper_info A) d))).
      rewrite !keys_set. tauto.
Qed.

(** C3. [search_papers] returns the ids of the results in the order of the
    results, one id for each occurrence: it does so from every state the
    store can work on, for a namespace whose name is one component of a
    path, and whenever it returns at all. *)
Theorem search_papers_returns_ids (topic : string) (papers : list Paper) (s : fs) :
  (plain_name (namespace topic) = true ->
   store_ready (namespace topic) s = true ->
   fst (search_papers topic papers s) = Return (map get_short_id papers))
  /\
  (forall ids s', search_papers topic papers s = (Return ids, s') ->
                  ids = map get_short_id papers).
Proof.
  split.
  - intros _ H.
    destruct (search_papers_ready topic papers s H) as (d0 & _ & _ & Hrun & _).
    now rewrite Hrun.
  - intros ids s'. apply search_papers_return_ids.
Qed.

(** What [search_papers] persists when it starts from the empty
    mapping. *)
Lemma search_papers_from_empty (topic : string) (papers : list Paper) (s : fs) :
  missing_or_not_json (namespace topic) s = true ->
  exists s',
    search_papers topic papers s = (Return (map get_short_id papers), s') /\
    stored (namespace topic) s' = Some (upsert papers []).
Proof.
  intros H. apply missing_start in H.
  exists (with_mapping (namespace topic) (upsert papers []) s). split.
  - now apply search_papers_run.
  - apply stored_with_mapping, upsert_normal, normal_nil.
Qed.




(** ** The Topic Detail Renderer: [get_topic_papers] *)

Section RenderingFacts.
Variable py_str : json -> string.

Lemma render_paper_app (paper_id : string) (v : json) (before content : string) :
  render_paper py_str paper_id v (before ++ content)
  = and_then (render_paper py_str paper_id v content)
             (fun rendered => Return (before ++ rendered)).
Proof.
  unfold render_paper.
  destruct (py_getitem v "title") as [t|]; cbn [and_then]; [|reflexivity].
  destruct (py_getitem v "authors") as [au|]; cbn [and_then]; [|reflexivity].
  destruct (py_join ", " au) as [joined|]; cbn [and_then]; [|reflexivity].
  destruct (py_getitem v "published") as [pu|]; cbn [and_then]; [|reflexivity].
  destruct (py_getitem v "pdf_url") as [url|]; cbn [and_then]; [|reflexivity].
  destruct (py_getitem v "summary") as [sm|]; cbn [and_then]; [|reflexivity].
  destruct (py_slice_to 500 sm) as [shown|]; cbn [and_then]; [|reflexivity].
  f_equal. now rewrite !append_assoc.
Qed.

Lemma render_paper_shift (paper_id : string) (v : json) (content : string) :
  render_paper py_str paper_id v content
  = and_then (render_paper py_str paper_id v "")
             (fun block => Return (content ++ block)).
Proof.
  rewrite <- (append_empty_r content) at 1. apply render_paper_app.
Qed.

Lemma render_papers_shift (items : list (string * json)) (content : string) :
  render_papers py_str items content
  = and_then (render_papers py_str items "")
             (fun body => Return (content ++ body)).
Proof.
  revert content. induction items as [|[k v] items IH]; intros content; simpl.
  - now rewrite append_empty_r.
  - rewrite (render_paper_shift k v content).
    destruct (render_paper py_str k v "") as [block|]; simpl; [|reflexivity].
    rewrite (IH (content ++ block)), (IH block).
    destruct (render_papers py_str items "") as [body|]; simpl; [|reflexivity].
    now rewrite append_assoc.
Qed.

(** A record with the five fields renders, and its summary is shown cut
    at 500 characters and followed by the ellipsis. *)
Lemma record_ok_fields (v : json) :
  record_ok v = true ->
  exists t a joined p u sm shown,
    py_getitem v "title" = Return t /\
    py_getitem v "authors" = Return a /\
    py_join ", " a = Return joined /\
    py_getitem v "published" = Return p /\
    py_getitem v "pdf_url" = Return u /\
    py_getitem v "summary" = Return sm /\
    py_slice_to 500 sm = Return shown /\
    forall text, sm = JStr text -> shown = JStr (substring 0 500 text).
Proof.
  unfold record_ok, Dict.has_key, py_getitem.
  destruct v as [| | | | |d]; try discriminate.
  destruct (Dict.get "title" d) as [t|]; [|discriminate].
  destruct (Dict.get "authors" d) as [a|]; [|discriminate].
  destruct (Dict.get "published" d) as [p|];
    [|rewrite !andb_false_r; discriminate].
  destruct (Dict.get "pdf_url" d) as [u|];
    [|rewrite !andb_false_r; discriminate].
  destruct (Dict.get "summary" d) as [sm|];
    [|rewrite !andb_false_r; discriminate].
  rewrite !andb_true_r. cbn [andb]. intros H.
  apply andb_prop in H. destruct H as [Ha Hs].
  assert (Hjoin : exists joined, py_join ", " a = Return joined).
  { destruct a as [| | |x|items|m]; try discriminate; simpl; eauto.
    destruct (all_strings items); [eauto | discriminate]. }
  destruct Hjoin as [joined Hjoin].
  assert (Hslice : exists shown,
             py_slice_to 500 sm = Return shown /\
             forall text, sm = JStr text -> shown = JStr (substring 0 500 text)).
  { destruct sm as [| | |text|items|]; try discriminate.
    - eexists. split; [reflexivity|]. now intros text' [= <-].
    - eexists. split; [reflexivity|]. discriminate. }
  destruct Hslice as (shown & Hslice & Hshown).
  exists t, a, joined, p, u, sm, shown. repeat split; assumption.
Qed.

(** A record with the five fields renders, and its summary is shown cut
    at 500 characters and followed by the ellipsis. *)
Lemma render_paper_ok (paper_id : string) (v : json) :
  record_ok v = true ->
  exists block,
    render_paper py_str paper_id v "" = Return block /\
    forall text, py_getitem v "summary" = Return (JStr text) ->
                 occurs (summary_block (substring 0 500 text)) block.
Proof.
  intros Hok.
  destruct (record_ok_fields v Hok)
    as (t & a & joined & p & u & sm & shown & Ht & Ha & Hj & Hp & Hu & Hsm & Hsl & Hshown).
  unfold render_paper. rewrite Ht. cbn [and_then]. rewrite Ha. cbn [and_then].
  rewrite Hj. cbn [and_then]. rewrite Hp. cbn [and_then].
  rewrite Hu. cbn [and_then]. rewrite Hsm. cbn [and_then].
  rewrite Hsl. cbn [and_then].
  eexists. split; [reflexivity|].
  intros text [= ->]. rewrite (Hshown text eq_refl). cbn [fmt].
  eexists. exists ("---" ++ nl ++ nl). apply append_assoc.
Qed.

Lemma render_papers_ok (items : list (string * json)) :
  Forall (fun kv => record_ok (snd kv) = true) items ->
  exists body,
    render_papers py_str items "" = Return body /\
    forall paper_id rec text,
      In (paper_id, rec) items ->
      py_getitem rec "summary" = Return (JStr text) ->
      occurs (summary_block (substring 0 500 text)) body.
Proof.
  induction 1 as [|[k v] items Hv _ (body & Hbody & Hocc)]; simpl.
  - exists "". split; [reflexivity | intros ? ? ? []].
  - destruct (render_paper_ok k v Hv) as (block & Hblock & Hsum).
    rewrite Hblock. simpl. rewrite (render_papers_shift items block), Hbody. simpl.
    exists (block ++ body). split; [reflexivity|].
    intros paper_id rec text [[= <- <-]|Hin] Hget.
    + apply occurs_before. now apply Hsum.
    + apply occurs_after. now apply Hocc with paper_id rec.
Qed.

Lemma py_getitem_raises (v : json) (key : string) (e : exn) :
  py_getitem v key = Raise e -> lookup_error e.
Proof.
  unfold lookup_error.
  destruct v as [| | | | |d]; simpl; try (intros [= <-]; now left).
  destruct (Dict.get key d); [discriminate | intros [= <-]; now right].
Qed.

Lemma py_join_raises (sep : string) (v : json) (e : exn) :
  py_join sep v = Raise e -> lookup_error e.
Proof.
  unfold lookup_error.
  destruct v as [| | | |items|d]; simpl; try discriminate;
    try (intros [= <-]; now left).
  destruct (all_strings items); [discriminate | intros [= <-]; now left].
Qed.

Lemma py_slice_to_raises (n : nat) (v : json) (e : exn) :
  py_slice_to n v = Raise e -> lookup_error e.
Proof.
  unfold lookup_error.
  destruct v; simpl; try discriminate; intros [= <-]; now left.
Qed.

Lemma render_paper_raises (paper_id : string) (v : json) (content : string)
      (e : exn) :
  render_paper py_str paper_id v content = Raise e -> lookup_error e.
Proof.
  unfold render_paper.
  destruct (py_getitem v "title") as [t|e1] eqn:E1; cbn [and_then];
    [|intros [= <-]; now apply py_getitem_raises in E1].
  destruct (py_getitem v "authors") as [au|e2] eqn:E2; cbn [and_then];
    [|intros [= <-]; now apply py_getitem_raises in E2].
  destruct (py_join ", " au) as [joined|e3] eqn:E3; cbn [and_then];
    [|intros [= <-]; now apply py_join_raises in E3].
  destruct (py_getitem v "published") as [pu|e4] eqn:E4; cbn [and_then];
    [|intros [= <-]; now apply py_getitem_raises in E4].
  destruct (py_getitem v "pdf_url") as [url|e5] eqn:E5; cbn [and_then];
    [|intros [= <-]; now apply py_getitem_raises in E5].
  destruct (py_getitem v "summary") as [sm|e6] eqn:E6; cbn [and_then];
    [|intros [= <-]; now apply py_getitem_raises in E6].
  destruct (py_slice_to 500 sm) as [shown|e7] eqn:E7; cbn [and_then];
    [discriminate | intros [= <-]; now apply py_slice_to_raises in E7].
Qed.

Lemma render_papers_raises (items : list (string * json)) (content : string)
      (e : exn) :
  render_papers py_str items content = Raise e -> lookup_error e.
Proof.
  revert content. induction items as [|[k v] items IH]; intros content;
    cbn [render_papers]; [discriminate|].
  destruct (render_paper py_str k v content) as [c|e1] eqn:E1; cbn [and_then].
  - apply IH.
  - intros [= <-]. now apply render_paper_raises in E1.
Qed.

(** The renderer on a namespace whose file holds a mapping. *)
Lemma get_topic_papers_stored (topic : string) (s : fs)
      (d : list (string * json)) :
  stored (namespace topic) s = Some d ->
  get_topic_papers py_str topic s
  = (render_papers py_str d
       (("# Papers on " ++ PyStr.title (PyStr.replace "_" " " topic) ++ nl ++ nl)
        ++ "Total papers: " ++ PyStr.of_nat (List.length d) ++ nl ++ nl),
     s).
Proof.
  unfold stored, get_topic_papers. fold (namespace topic).
  generalize (namespace topic) as name. intros name Hst.
  destruct (lookup name s) as [[|[[[|v|]|]|]]|] eqn:E; try discriminate.
  destruct (decode v) as [| | | | |d'] eqn:Ev; try discriminate.
  injection Hst as ->.
  unfold bind, try_except, os_path_exists, open_r, lift, ret, stat. cbv zeta.
  rewrite E. simpl. rewrite E. simpl. rewrite Ev. simpl.
  destruct (render_papers py_str d _) as [out|e] eqn:Er; [reflexivity|].
  apply render_papers_raises in Er. now destruct Er as [-> | ->].
Qed.

(** The renderer reads: whatever it returns or raises, the files are as
    they were. *)
Lemma get_topic_papers_reads_only (topic : string) (s : fs) :
  snd (get_topic_papers py_str topic s) = s.
Proof.
  unfold get_topic_papers.
  generalize (PyStr.replace " " "_" (PyStr.lower topic)) as name. intros name.
  unfold bind, try_except, os_path_exists, open_r, lift, ret, stat. cbv zeta.
  destruct (lookup name s) as [[|[[[|v|]|]|]]|] eqn:E; simpl;
    rewrite ?E; simpl; try reflexivity.
  destruct (py_len (decode v)) as [total|e]; simpl; [|now destruct e].
  destruct (py_items (decode v)) as [items|e]; simpl; [|now destruct e].
  now destruct (render_papers py_str items _) as [out|[]].
Qed.

Lemma get_topic_papers_shows_summary (topic : string) (s : fs)
      (d : list (string * json)) (paper_id : string) (rec : json)
      (text : string) :
  stored (namespace topic) s = Some d ->
  Forall (fun kv => record_ok (snd kv) = true) d ->
  In (paper_id, rec) d ->
  py_getitem rec "summary" = Return (JStr text) ->
  exists out,
    get_topic_papers py_str topic s = (Return out, s) /\
    occurs (summary_block (substring 0 500 text)) out.
Proof.
  intros Hst Hok Hin Hsum.
  rewrite (get_topic_papers_stored topic s d Hst).
  destruct (render_papers_ok d Hok) as (body & Hbody & Hocc).
  rewrite render_papers_shift, Hbody. cbn [and_then].
  eexists. split; [reflexivity|].
  apply occurs_after. now apply Hocc with paper_id rec.
Qed.

End RenderingFacts.



(** C8. For a stored record whose summary is longer than 500 characters,
    the document [get_topic_papers] returns shows the first 500 characters
    of the summary, followed by the ellipsis; the renderer writes nothing,
    so the record on disk keeps the whole summary. *)
Theorem get_topic_papers_truncates_long_summary
        (py_str : json -> string) (topic : string) (s : fs)
        (d : list (string * json)) (paper_id : string) (rec : json)
        (text : string) :
  stored (namespace topic) s = Some d ->
  Forall (fun kv => record_ok (snd kv) = true) d ->
  In (paper_id, rec) d ->
  py_getitem rec "summary" = Return (JStr text) ->
  500 < String.length text ->
  exists out s',
    get_topic_papers py_str topic s = (Return out, s') /\
    occurs ("### Summary" ++ nl ++ substring 0 500 text ++ "..." ++ nl ++ nl) out /\
    String.length (substring 0 500 text) = 500 /\
    s' = s /\
    stored (namespace topic) s' = Some d.
Proof.
  intros Hst Hok Hin Hsum Hlen.
  destruct (get_topic_papers_shows_summary py_str topic s d paper_id rec text
              Hst Hok Hin Hsum) as (out & Hrun & Hocc).
  exists out, s. repeat split; try assumption.
  apply substring_length. lia.
Qed.

(** C10. The ellipsis follows the shown summary whatever the length of the
    summary: a summary of 500 characters or fewer is shown in full, and
    still followed by "...". *)
Theorem get_topic_papers_ellipsis_unconditional
        (py_str : json -> string) (topic : string) (s : fs)
        (d : list (string * json)) (paper_id : string) (rec : json)
        (text : string) :
  stored (namespace topic) s = Some d ->
  Forall (fun kv => record_ok (snd kv) = true) d ->
  In (paper_id, rec) d ->
  py_getitem rec "summary" = Return (JStr text) ->
  exists out,
    get_topic_papers py_str topic s = (Return out, s) /\
    occurs ("### Summary" ++ nl ++ substring 0 500 text ++ "..." ++ nl ++ nl) out /\
    (String.length text <= 500 ->
     occurs ("### Summary" ++ nl ++ text ++ "..." ++ nl ++ nl) out).
Proof.
  intros Hst Hok Hin Hsum.
  destruct (get_topic_papers_shows_summary py_str topic s d paper_id rec text
              Hst Hok Hin Hsum) as (out & Hrun & Hocc).
  exists out. repeat split; try assumption.
  intros Hlen. now rewrite <- (substring_all text 500 Hlen) at 1.
Qed.


(** ** The Topic Listing Renderer: [get_available_folders] *)

Lemma collect_folders_run (names folders : list string) (s : fs) :
  collect_folders names folders s
  = (Return (folders ++ filter (qualifies s) names)%list, s).
Proof.
  revert folders. induction names as [|name names IH]; intros folders; simpl.
  - unfold ret. now rewrite app_nil_r.
  - unfold bind, os_path_isdir, os_path_exists, qualifies.
    destruct (stat (TopicPath name) s) as [[|]|]; try apply IH.
    destruct (stat (InfoPath name) s) as [k|]; [|apply IH].
    rewrite IH. now rewrite <- app_assoc.
Qed.

Lemma fold_left_lines (folders : list string) (content : string) :
  fold_left (fun content folder => content ++ "- " ++ folder ++ nl) folders content
  = content ++ fold_right (fun folder rest => "- " ++ folder ++ nl ++ rest) "" folders.
Proof.
  revert content. induction folders as [|f folders IH]; intros content;
    cbn [fold_left fold_right].
  - now rewrite append_empty_r.
  - rewrite IH. now rewrite !append_assoc.
Qed.

Lemma get_available_folders_run (s : fs) :
  get_available_folders s = (Return (listing (qualifying s)), s).
Proof.
  unfold get_available_folders, qualifying, entry_names.
  unfold bind at 1. unfold os_path_exists at 1. cbn [stat].
  destruct s as [entries|].
  - unfold bind at 1. unfold bind at 1. unfold os_listdir at 1.
    rewrite collect_folders_run. cbn [app].
    destruct (filter (qualifies (Some entries)) (map fst entries)) as [|f l];
      [reflexivity|].
    unfold ret, listing. rewrite fold_left_lines.
    now rewrite !append_assoc.
  - reflexivity.
Qed.

(** C9, as amended. [get_available_folders] lists an entry of PAPER_DIR
    exactly when it is a directory that holds something under the name
    papers_info.json, whatever that is and whether it parses or not; the
    document has one line for each such entry, in the order of enumeration,
    and the line "No topics found." when there is none; the files are left
    as they are. *)
Theorem get_available_folders_lists_directories_with_file (s : fs) :
  get_available_folders s = (Return (listing (qualifying s)), s)
  /\
  (forall name,
      In name (qualifying s)
      <-> In name (entry_names s)
          /\ stat (TopicPath name) s = Some KDir
          /\ stat (InfoPath name) s <> None)
  /\
  (qualifying s = [] <->
   listing (qualifying s) = "# Available Topics" ++ nl ++ nl ++ "No topics found." ++ nl).
Proof.
  split; [apply get_available_folders_run|]. split.
  - intros name. unfold qualifying. rewrite filter_In. unfold qualifies.
    destruct (stat (TopicPath name) s) as [[|]|];
      destruct (stat (InfoPath name) s) as [k|];
      intuition (try discriminate; try congruence).
  - destruct (qualifying s) as [|f l]; split; try reflexivity; discriminate.
Qed.

(** C9 as stated fails: a namespace whose papers_info.json does not parse
    is listed all the same. *)
Lemma get_available_folders_lists_unparseable :
  get_available_folders broken_fs
  = (Return ("# Available Topics" ++ nl ++ nl ++ "- broken" ++ nl ++ nl ++
             "Use @broken to access papers in that topic." ++ nl), broken_fs)
  /\ fst (bind (open_r "broken") (fun f => lift (json_load f)) broken_fs)
     = Raise JSONDecodeError
  /\ ~ (forall s name, listed name s -> has_valid_file name s).
Proof.
  split; [reflexivity|]. split; [reflexivity|].
  intros H. destruct (H broken_fs "broken") as [v Hv]; [|discriminate Hv].
  eexists. exists broken_fs. split; [reflexivity|].
  exists ("# Available Topics" ++ nl ++ nl).
  exists (nl ++ "Use @broken to access papers in that topic." ++ nl).
  reflexivity.
Qed.

(** ** The Metadata Index Query: [extract_info] *)

Section LookupFacts.
Variable json_dumps : json -> string.

Lemma extract_info_from_not_found (paper_id : string) (names : list string) (s : fs) :
  forallb (not_found_in paper_id s) names = true ->
  extract_info_from json_dumps paper_id names s
  = (Return ("There's no saved information related to paper " ++ paper_id ++ "."), s).
Proof.
  induction names as [|name names IH]; cbn [forallb extract_info_from];
    [reflexivity|].
  intros H. apply andb_prop in H. destruct H as [Hname Hrest].
  specialize (IH Hrest). unfold not_found_in in Hname.
  unfold bind, try_except, os_path_isdir, os_path_isfile, open_r, lift, ret, stat.
  destruct (lookup name s) as [[|[[[|v|]|]|]]|] eqn:E; cbn; rewrite ?E; cbn;
    try exact IH; try discriminate Hname.
  destruct (py_contains paper_id (decode v)) as [[|]|e]; try discriminate.
  exact IH.
Qed.

(** With PAPER_DIR in place, the lookup returns the sentence that nothing
    is saved when its loop passes over every entry: what is no directory,
    a directory without a regular papers_info.json, a file whose text is
    no JSON document, and a value in which the id is not found. *)
Lemma extract_info_not_found (paper_id : string) (entries : list (string * entry)) :
  forallb (not_found_in paper_id (Some entries)) (map fst entries) = true ->
  extract_info json_dumps paper_id (Some entries)
  = (Return ("There's no saved information related to paper " ++ paper_id ++ "."),
     Some entries).
Proof.
  intros H. unfold extract_info, bind, os_listdir.
  now apply extract_info_from_not_found.
Qed.

(** C5 fails where PAPER_DIR does not exist: no namespace stores the id,
    and [extract_info] raises the FileNotFoundError of [os.listdir]
    instead of returning the sentence, while [get_available_folders]
    tests for PAPER_DIR and returns its document. *)
Theorem extract_info_without_paper_dir (paper_id : string) :
  extract_info json_dumps paper_id None = (Raise FileNotFoundError, None)
  /\ entry_names None = []
  /\ get_available_folders None
     = (Return ("# Available Topics" ++ nl ++ nl ++ "No topics found." ++ nl), None).
Proof. repeat split. Qed.

End LookupFacts.

(** ** The name of a namespace *)

(** Putting a character in lower case first changes nothing in what
    [title] makes of it and of what follows. *)
Lemma title_from_lower_char (c : ascii) (cased : bool) (rest1 rest2 : string) :
  (forall b, PyStr.title_from b rest1 = PyStr.title_from b rest2) ->
  PyStr.title_from cased (String (if Ascii.eqb c "_" then " "%char else c) rest1)
  = PyStr.title_from cased
      (String (if Ascii.eqb (PyStr.lower_char c) "_" then " "%char
               else PyStr.lower_char c) rest2).
Proof.
  intros H.
  destruct c as [[] [] [] [] [] [] [] []]; destruct cased;
    cbn; rewrite ?H; reflexivity.
Qed.

Lemma title_replace_lower (s : string) (cased : bool) :
  PyStr.title_from cased (PyStr.replace "_" " " s)
  = PyStr.title_from cased (PyStr.replace "_" " " (PyStr.lower s)).
Proof.
  revert cased. induction s as [|c s IH]; intros cased; [reflexivity|].
  unfold PyStr.replace, PyStr.lower in *. cbn [PyStr.map_chars].
  apply title_from_lower_char. intros b. apply IH.
Qed.



Lemma search_papers_by_namespace (t1 t2 : string) (papers : list Paper) (s : fs) :
  namespace t1 = namespace t2 ->
  search_papers t1 papers s = search_papers t2 papers s.
Proof. unfold namespace, search_papers. now intros ->. Qed.



Lemma start_mapping_normal (name : string) (s : fs) (d0 : list (string * json)) :
  start_mapping name s = Some d0 -> normal d0.
Proof.
  unfold start_mapping.
  destruct (lookup name s) as [[|[[[|v|]|]|]]|]; try discriminate;
    try (intros [= <-]; apply normal_nil).
  destruct (decode v) eqn:E; try discriminate.
  intros [= <-]. now apply decode_object with v.
Qed.

Lemma all_strings_map (l : list string) : all_strings (map JStr l) = Some l.
Proof. induction l as [|a l IH]; simpl; [reflexivity | now rewrite IH]. Qed.

Section RenderingStored.
Variable py_str : json -> string.

Lemma render_paper_built (p : Paper) :
  render_paper py_str (get_short_id p) (paper_info p) EmptyString
  = Return (paper_block p).
Proof.
  unfold render_paper, paper_info, py_getitem.
  change (Dict.get "title" _) with (Some (JStr (title p))).
  change (Dict.get "authors" _) with (Some (JArr (map JStr (authors p)))).
  change (Dict.get "published" _) with (Some (JStr (published p))).
  change (Dict.get "pdf_url" _) with (Some (JStr (pdf_url p))).
  change (Dict.get "summary" _) with (Some (JStr (summary p))).
  cbn [and_then py_join py_slice_to fmt]. rewrite all_strings_map.
  cbn [and_then]. unfold paper_block, PyStr.slice_to.
  f_equal. now rewrite !append_assoc.
Qed.



End RenderingStored.




(** ** The properties at sample inputs *)

(** C1 on [sample_fs]: after a search that finds [paper_A] and one that
    finds its later version, the older record, with its field of its own,
    has given way to the five fields of the later version. *)
Lemma search_papers_twice_last_write_wins_witness :
  plain_name (namespace "Quantum Computing") = true
  /\ store_ready (namespace "Quantum Computing") sample_fs = true
  /\ get_short_id paper_A = get_short_id paper_A_revised
  /\ exists s1 s2 d,
      search_papers "Quantum Computing" [paper_A] sample_fs
      = (Return [get_short_id paper_A], s1) /\
      search_papers "Quantum Computing" [paper_A_revised] s1
      = (Return [get_short_id paper_A_revised], s2) /\
      stored (namespace "Quantum Computing") s2 = Some d /\
      Dict.count (get_short_id paper_A_revised) d = 1 /\
      Dict.get (get_short_id paper_A_revised) d
      = Some (JObj [ ("title", JStr (title paper_A_revised));
                     ("authors", JArr (map JStr (authors paper_A_revised)));
                     ("summary", JStr (summary paper_A_revised));
                     ("pdf_url", JStr (pdf_url paper_A_revised));
                     ("published", JStr (published paper_A_revised)) ]).
Proof.
  split; [reflexivity|]. split; [reflexivity|]. split; [reflexivity|].
  exact (proj1 (search_papers_twice_last_write_wins
                  "Quantum Computing" paper_A paper_A_revised sample_fs
                  eq_refl eq_refl eq_refl)).
Defined.

(** C2 on [sample_fs]: a search that finds [paper_B] keeps the record of
    [sample_mapping]. *)
Lemma search_papers_keeps_other_records_witness :
  stored (namespace "Quantum Computing") sample_fs = Some sample_mapping
  /\ exists s' d',
      search_papers "Quantum Computing" [paper_B] sample_fs
      = (Return (map get_short_id [paper_B]), s') /\
      stored (namespace "Quantum Computing") s' = Some d' /\
      (forall k v, Dict.get k sample_mapping = Some v ->
                   ~ In k (map get_short_id [paper_B]) -> Dict.get k d' = Some v) /\
      (forall k, In k (Dict.keys sample_mapping) -> In k (Dict.keys d')).
Proof.
  split; [reflexivity|].
  exact (proj1 (search_papers_keeps_other_records
                  "Quantum Computing" sample_fs sample_mapping eq_refl) [paper_B]).
Defined.

(** C3 on [sample_fs], with one result twice among the results. *)
Lemma search_papers_returns_ids_witness :
  plain_name (namespace "Quantum Computing") = true
  /\ store_ready (namespace "Quantum Computing") sample_fs = true
  /\ fst (search_papers "Quantum Computing" [paper_A; paper_B; paper_A] sample_fs)
     = Return [get_short_id paper_A; get_short_id paper_B; get_short_id paper_A].
Proof.
  split; [reflexivity|]. split; [reflexivity|].
  exact (proj1 (search_papers_returns_ids
                  "Quantum Computing" [paper_A; paper_B; paper_A] sample_fs)
           eq_refl eq_refl).
Defined.





Lemma long_text_length : 500 < String.length long_text.
Proof. apply Nat.ltb_lt. reflexivity. Defined.

Lemma searched_fs_records_ok :
  Forall (fun kv : string * json => record_ok (snd kv) = true)
         [ (get_short_id paper_A, paper_info paper_A);
           (get_short_id paper_long, paper_info paper_long) ].
Proof. repeat constructor. Defined.

(** C8 on [searched_fs]: the summary of [paper_long], of 600 characters. *)
Lemma get_topic_papers_truncates_long_summary_witness :
  500 < String.length (summary paper_long)
  /\ exists out s',
      get_topic_papers (fun _ => EmptyString) "quantum computing" searched_fs
      = (Return out, s') /\
      occurs ("### Summary" ++ nl ++ substring 0 500 long_text ++ "..." ++ nl ++ nl) out /\
      String.length (substring 0 500 long_text) = 500 /\
      s' = searched_fs /\
      stored (namespace "quantum computing") s'
      = Some [ (get_short_id paper_A, paper_info paper_A);
               (get_short_id paper_long, paper_info paper_long) ].
Proof.
  split; [exact long_text_length|].
  apply (get_topic_papers_truncates_long_summary
           (fun _ => EmptyString) "quantum computing" searched_fs
           [ (get_short_id paper_A, paper_info paper_A);
             (get_short_id paper_long, paper_info paper_long) ]
           (get_short_id paper_long) (paper_info paper_long) long_text).
  - reflexivity.
  - exact searched_fs_records_ok.
  - right. left. reflexivity.
  - reflexivity.
  - exact long_text_length.
Defined.

(** C10 on [searched_fs]: the summary of [paper_A], of 16 characters. *)
Lemma get_topic_papers_ellipsis_unconditional_witness :
  String.length (summary paper_A) <= 500
  /\ exists out,
      get_topic_papers (fun _ => EmptyString) "quantum computing" searched_fs
      = (Return out, searched_fs) /\
      occurs ("### Summary" ++ nl ++ "We study qubits." ++ "..." ++ nl ++ nl) out.
Proof.
  split; [apply Nat.leb_le; reflexivity|].
  destruct (get_topic_papers_ellipsis_unconditional
              (fun _ => EmptyString) "quantum computing" searched_fs
              [ (get_short_id paper_A, paper_info paper_A);
                (get_short_id paper_long, paper_info paper_long) ]
              (get_short_id paper_A) (paper_info paper_A) (summary paper_A)
              eq_refl searched_fs_records_ok (or_introl eq_refl) eq_refl)
    as (out & Hrun & _ & Hfull).
  exists out. split; [exact Hrun|].
  apply Hfull. apply Nat.leb_le. reflexivity.
Defined.

(** * Further properties *)

(** ** The Topic Store *)

Lemma keys_set_present {V : Type} (k : string) (v : V) (d : list (string * V)) :
  Dict.get k d <> None -> Dict.keys (Dict.set k v d) = Dict.keys d.
Proof.
  induction d as [|[k0 v0] d IH]; simpl; [congruence|].
  destruct (String.eqb_spec k k0) as [->|Hne]; simpl; [reflexivity|].
  intros H. now rewrite IH.
Qed.

Lemma keys_set_cases {V : Type} (k : string) (v : V) (d : list (string * V)) :
  Dict.keys (Dict.set k v d)
  = (Dict.keys d ++ match Dict.get k d with Some _ => [] | None => [k] end)%list.
Proof.
  destruct (Dict.get k d) as [x|] eqn:E.
  - rewrite app_nil_r. apply keys_set_present. congruence.
  - rewrite (set_fresh k v d E). unfold Dict.keys. now rewrite map_app.
Qed.

(** What [search_papers] leaves: the files as they were, or the files with
    the directory of the namespace made, or with the file of the namespace
    written. *)
Lemma search_papers_files (topic : string) (papers : list Paper) (s : fs)
      (o : outcome (list string)) (s' : fs) :
  search_papers topic papers s = (o, s') ->
  (exists e, o = Raise e /\ s' = s
             /\ (e = FileExistsError \/ e = IsADirectoryError
                 \/ e = UnicodeDecodeError \/ e = TypeError))
  \/ (exists ids v, o = Return ids /\
        s' = Some (Dict.set (namespace topic)
                            (Directory (Some (Regular (Document v))))
                            (match s with None => [] | Some entries => entries end))).
Proof.
  unfold search_papers. fold (namespace topic).
  generalize (namespace topic) as name. intros name.
  unfold bind, try_except, os_makedirs, open_r, json_dump_w, lift, ret, lookup.
  destruct s as [entries|]; simpl.
  - destruct (Dict.get name entries) as [[|[[[|v|]|]|]]|] eqn:E; simpl;
      rewrite ?E; simpl.
    + intros [= <- <-]. left. eauto 10.
    + destruct (process_papers papers [] (JObj [])) as [r|e] eqn:Ep.
      * simpl. rewrite ?E. intros [= <- <-]. right. eauto.
      * now rewrite process_papers_run in Ep.
    + destruct (process_papers papers [] (decode v)) as [r|e] eqn:Ep; simpl.
      * rewrite ?E. intros [= <- <-]. right. eauto.
      * intros [= <- <-]. left. exists e. repeat split.
        destruct papers as [|p papers]; [discriminate|].
        destruct (decode v);
          try (simpl in Ep; injection Ep as <-; now auto).
        now rewrite process_papers_run in Ep.
    + intros [= <- <-]. left. eauto 10.
    + intros [= <- <-]. left. eauto 10.
    + destruct (process_papers papers [] (JObj [])) as [r|e] eqn:Ep.
      * simpl. rewrite ?E. intros [= <- <-]. right. eauto.
      * now rewrite process_papers_run in Ep.
    + rewrite (get_app_fresh _ _ _ E). simpl.
      destruct (process_papers papers [] (JObj [])) as [r|e] eqn:Ep.
      * simpl. rewrite (get_app_fresh _ _ _ E). intros [= <- <-]. right.
        exists (fst r), (snd r). split; [reflexivity|].
        now rewrite <- (set_fresh _ (Directory None) _ E), set_set.
      * now rewrite process_papers_run in Ep.
  - rewrite String.eqb_refl. simpl.
    destruct (process_papers papers [] (JObj [])) as [r|e] eqn:Ep.
    + simpl. rewrite String.eqb_refl. intros [= <- <-]. right. eauto.
    + now rewrite process_papers_run in Ep.
Qed.



(** X2. What stands in the way of [search_papers], and what it raises
    then: something that is no directory where the directory of the
    namespace belongs (FileExistsError), a directory where its file belongs
    (IsADirectoryError), and, when there is a result to store, a file that
    parses to something other than an object (TypeError). *)
Theorem search_papers_errors (topic : string) (p : Paper) (papers : list Paper) (s : fs) :
  (lookup (namespace topic) s = Some NotDir ->
   search_papers topic papers s = (Raise FileExistsError, s))
  /\ (lookup (namespace topic) s = Some (Directory (Some Subdir)) ->
      search_papers topic papers s = (Raise IsADirectoryError, s))
  /\ (forall v,
         lookup (namespace topic) s = Some (Directory (Some (Regular (Document v)))) ->
         (forall d, decode v <> JObj d) ->
         search_papers topic (p :: papers) s = (Raise TypeError, s)).
Proof.
  unfold search_papers. fold (namespace topic).
  generalize (namespace topic) as name. intros name.
  unfold bind, try_except, os_makedirs, open_r, json_dump_w, lift, ret, lookup.
  destruct s as [entries|]; simpl; [|repeat split; try discriminate; intros v; discriminate].
  split; [|split].
  - intros E. now rewrite E.
  - intros E. rewrite E. simpl. now rewrite E.
  - intros v E Hv. rewrite E. simpl. rewrite E. simpl.
    destruct (decode v) as [| | | | |d]; try reflexivity. now destruct (Hv d).
Qed.

Lemma search_papers_errors_witness :
  lookup (namespace "notes.txt") sample_fs = Some NotDir
  /\ search_papers "notes.txt" [paper_B] sample_fs = (Raise FileExistsError, sample_fs).
Proof.
  split; [reflexivity|].
  exact (proj1 (search_papers_errors "notes.txt" paper_A [paper_B] sample_fs) eq_refl).
Defined.

(** What a search leaves of the other entries of PAPER_DIR. *)
Lemma search_papers_elsewhere (topic : string) (papers : list Paper) (s : fs)
      (name : string) :
  name <> namespace topic ->
  lookup name (snd (search_papers topic papers s)) = lookup name s
  /\ (In name (entry_names (snd (search_papers topic papers s)))
      <-> In name (entry_names s)).
Proof.
  intros Hne.
  destruct (search_papers topic papers s) as [o s'] eqn:H.
  destruct (search_papers_files topic papers s o s' H)
    as [(e & _ & -> & _) | (ids & v & _ & ->)]; cbn [snd].
  - split; [reflexivity | tauto].
  - split.
    + unfold lookup. rewrite get_set_other by exact Hne. now destruct s.
    + unfold entry_names.
      rewrite (keys_set (namespace topic) (Directory (Some (Regular (Document v))))
                 (match s with Some entries => entries | None => [] end) name).
      destruct s as [entries|]; simpl; tauto.
Qed.

(** X3. [search_papers] touches one namespace: whatever it returns or
    raises, for a namespace whose name is one component of a path, every
    entry of PAPER_DIR under another name is what it was, and PAPER_DIR has
    the entries under other names that it had, no more and no fewer. *)
Theorem search_papers_other_namespaces
        (topic : string) (papers : list Paper) (s : fs) (name : string) :
  plain_name (namespace topic) = true ->
  name <> namespace topic ->
  lookup name (snd (search_papers topic papers s)) = lookup name s
  /\ (In name (entry_names (snd (search_papers topic papers s)))
      <-> In name (entry_names s)).
Proof. intros _. apply search_papers_elsewhere. Qed.

(** X3 on [sample_fs]: a search for a new topic leaves the mapping of
    quantum_computing as it is. *)
Lemma search_papers_other_namespaces_witness :
  plain_name (namespace "Graph Theory") = true
  /\ "quantum_computing" <> namespace "Graph Theory"
  /\ lookup "quantum_computing" (snd (search_papers "Graph Theory" [paper_B] sample_fs))
     = lookup "quantum_computing" sample_fs.
Proof.
  assert (Hne : "quantum_computing" <> namespace "Graph Theory") by discriminate.
  split; [reflexivity|]. split; [exact Hne|].
  exact (proj1 (search_papers_other_namespaces
                  "Graph Theory" [paper_B] sample_fs "quantum_computing" eq_refl Hne)).
Defined.

(** X4. When several results of one call have the same id, the record of
    the last of them is the one stored; an id that no result has keeps the
    record it had. The name of the namespace is one component of a path,
    and the call starts from the mapping [d0]. *)
Theorem search_papers_last_result_wins
        (topic : string) (papers : list Paper) (s : fs) (d0 : list (string * json)) :
  plain_name (namespace topic) = true ->
  start_mapping (namespace topic) s = Some d0 ->
  exists s' d',
    search_papers topic papers s = (Return (map get_short_id papers), s') /\
    stored (namespace topic) s' = Some d' /\
    forall k, Dict.get k d'
              = match last_with_id k papers with
                | Some q => Some (paper_info q)
                | None => Dict.get k d0
                end.
Proof.
  intros _ Hstart.
  pose proof (start_mapping_normal _ _ _ Hstart) as Hn.
  exists (with_mapping (namespace topic) (upsert papers d0) s), (upsert papers d0).
  split; [now apply search_papers_run|]. split.
  - apply stored_with_mapping. now apply upsert_normal.
  - intros k. apply get_upsert.
Qed.

Lemma search_papers_last_result_wins_witness :
  plain_name (namespace "Quantum Computing") = true
  /\ start_mapping (namespace "Quantum Computing") sample_fs = Some sample_mapping
  /\ exists s' d',
      search_papers "Quantum Computing" [paper_A; paper_B; paper_A_revised] sample_fs
      = (Return (map get_short_id [paper_A; paper_B; paper_A_revised]), s') /\
      stored (namespace "Quantum Computing") s' = Some d' /\
      forall k, Dict.get k d'
                = match last_with_id k [paper_A; paper_B; paper_A_revised] with
                  | Some q => Some (paper_info q)
                  | None => Dict.get k sample_mapping
                  end.
Proof.
  split; [reflexivity|]. split; [reflexivity|].
  exact (search_papers_last_result_wins
           "Quantum Computing" [paper_A; paper_B; paper_A_revised] sample_fs
           sample_mapping eq_refl eq_refl).
Defined.

Lemma dict_ext {V : Type} (d1 d2 : list (string * V)) :
  Dict.keys d1 = Dict.keys d2 ->
  NoDup (Dict.keys d1) ->
  (forall k, Dict.get k d1 = Dict.get k d2) ->
  d1 = d2.
Proof.
  revert d2. induction d1 as [|[k1 v1] d1 IH]; intros [|[k2 v2] d2] Hk Hnd Hget;
    try discriminate; [reflexivity|].
  simpl in Hk. injection Hk as Hk1 Hk. subst k2.
  simpl in Hnd. apply NoDup_cons_iff in Hnd. destruct Hnd as [Hnotin Hnd].
  pose proof (Hget k1) as H1. simpl in H1. rewrite String.eqb_refl in H1.
  injection H1 as H1. subst v2. f_equal. apply IH; [exact Hk | exact Hnd|].
  intros k'. specialize (Hget k'). simpl in Hget.
  destruct (String.eqb_spec k' k1) as [E|Hne]; [|exact Hget].
  subst k'.
  assert (H1 : Dict.get k1 d1 = None) by now apply get_none_not_in.
  assert (H2 : Dict.get k1 d2 = None).
  { apply get_none_not_in. unfold Dict.keys in *. now rewrite <- Hk. }
  congruence.
Qed.

Lemma upsert_keys_present (papers : list Paper) (d : list (string * json)) :
  (forall p, In p papers -> In (get_short_id p) (Dict.keys d)) ->
  Dict.keys (upsert papers d) = Dict.keys d.
Proof.
  unfold upsert. revert d.
  induction papers as [|p papers IH]; intros d H; cbn [fold_left]; [reflexivity|].
  assert (Hp : Dict.get (get_short_id p) d <> None).
  { intros E. apply get_none_not_in in E. apply E, H. now left. }
  rewrite IH.
  - now apply keys_set_present.
  - intros q Hq. rewrite keys_set_present by exact Hp. apply H. now right.
Qed.

Lemma upsert_twice (papers : list Paper) (d : list (string * json)) :
  NoDup (Dict.keys d) -> upsert papers (upsert papers d) = upsert papers d.
Proof.
  intros Hnd.
  assert (Hk : Dict.keys (upsert papers (upsert papers d)) = Dict.keys (upsert papers d)).
  { apply upsert_keys_present. intros p Hp. apply upsert_keys. left. now apply in_map. }
  apply dict_ext; [exact Hk| |].
  - rewrite Hk. unfold upsert. clear Hk. revert d Hnd.
    induction papers as [|p papers IH]; intros d Hnd; cbn [fold_left]; [exact Hnd|].
    apply IH. now apply set_nodup.
  - intros k. rewrite !get_upsert. now destruct (last_with_id k papers).
Qed.

(** X5. A search repeated with the same results changes nothing: after the
    second call the files are exactly what the first call left. The name
    of the namespace is one component of a path, and the store is in a
    state the call can work on. *)
Theorem search_papers_repeated_changes_nothing
        (topic : string) (papers : list Paper) (s : fs) :
  plain_name (namespace topic) = true ->
  store_ready (namespace topic) s = true ->
  exists s1,
    search_papers topic papers s = (Return (map get_short_id papers), s1) /\
    search_papers topic papers s1 = (Return (map get_short_id papers), s1).
Proof.
  intros _ Hready. destruct (store_ready_start _ _ Hready) as (d0 & Hstart & Hn).
  destruct (search_papers_two_calls topic papers papers s d0 Hstart Hn)
    as (s1 & s2 & H1 & H2 & _).
  exists s1. split; [exact H1|]. rewrite H2. f_equal.
  pose proof (search_papers_run topic papers s d0 Hstart) as R1.
  rewrite H1 in R1. injection R1 as ->.
  assert (Hstart1 : start_mapping (namespace topic)
                      (with_mapping (namespace topic) (upsert papers d0) s)
                    = Some (upsert papers d0)).
  { apply start_mapping_with_mapping. now apply upsert_normal. }
  pose proof (search_papers_run topic papers _ _ Hstart1) as R2.
  rewrite H2 in R2. injection R2 as ->.
  rewrite (upsert_twice papers d0 (proj1 Hn)).
  unfold with_mapping. now rewrite set_set.
Qed.

Lemma search_papers_repeated_changes_nothing_witness :
  plain_name (namespace "Quantum Computing") = true
  /\ store_ready (namespace "Quantum Computing") sample_fs = true
  /\ exists s1,
      search_papers "Quantum Computing" [paper_A; paper_B; paper_A_revised] sample_fs
      = (Return (map get_short_id [paper_A; paper_B; paper_A_revised]), s1) /\
      search_papers "Quantum Computing" [paper_A; paper_B; paper_A_revised] s1
      = (Return (map get_short_id [paper_A; paper_B; paper_A_revised]), s1).
Proof.
  split; [reflexivity|]. split; [reflexivity|].
  exact (search_papers_repeated_changes_nothing
           "Quantum Computing" [paper_A; paper_B; paper_A_revised] sample_fs
           eq_refl eq_refl).
Defined.

Lemma upsert_keys_app (papers : list Paper) (d : list (string * json)) :
  exists added, Dict.keys (upsert papers d) = (Dict.keys d ++ added)%list.
Proof.
  unfold upsert. revert d.
  induction papers as [|p papers IH]; intros d; cbn [fold_left].
  - exists []. now rewrite app_nil_r.
  - destruct (IH (Dict.set (get_short_id p) (paper_info p) d)) as [l Hl].
    rewrite Hl, keys_set_cases, <- app_assoc. eauto.
Qed.

(** X6. The records keep their order: after a search the ids that were
    stored come first, in the order they had, and the new ids of the
    results follow them, each once. *)
Theorem search_papers_keeps_record_order
        (topic : string) (papers : list Paper) (s : fs) (d : list (string * json)) :
  stored (namespace topic) s = Some d ->
  exists s' d' added,
    search_papers topic papers s = (Return (map get_short_id papers), s') /\
    stored (namespace topic) s' = Some d' /\
    Dict.keys d' = (Dict.keys d ++ added)%list /\
    NoDup added /\
    forall k, In k added <-> In k (map get_short_id papers) /\ ~ In k (Dict.keys d).
Proof.
  intros Hst.
  assert (Hstart : start_mapping (namespace topic) s = Some d) by now apply stored_start.
  assert (Hn : normal d) by now apply stored_normal with (namespace topic) s.
  destruct (upsert_keys_app papers d) as [added Hadded].
  assert (Hnd : NoDup (Dict.keys d ++ added)).
  { rewrite <- Hadded. apply (upsert_normal papers d Hn). }
  exists (with_mapping (namespace topic) (upsert papers d) s), (upsert papers d), added.
  split; [now apply search_papers_run|].
  split; [apply stored_with_mapping; now apply upsert_normal|].
  split; [exact Hadded|]. split; [now apply NoDup_app_remove_l in Hnd|].
  intros k. split.
  - intros Hin. split.
    + assert (Hk : In k (Dict.keys (upsert papers d)))
        by (rewrite Hadded; apply in_or_app; now right).
      apply upsert_keys in Hk. destruct Hk as [Hk|Hk]; [exact Hk|].
      exfalso. revert Hnd Hk Hin. clear. intros Hnd Hk Hin.
      induction (Dict.keys d) as [|x l IH]; [contradiction|].
      simpl in Hnd. inversion Hnd as [|? ? Hx Hl]; subst.
      destruct Hk as [->|Hk]; [|now apply IH].
      apply Hx. apply in_or_app. now right.
    + intros Hk. revert Hnd Hk Hin. clear. intros Hnd Hk Hin.
      induction (Dict.keys d) as [|x l IH]; [contradiction|].
      simpl in Hnd. inversion Hnd as [|? ? Hx Hl]; subst.
      destruct Hk as [->|Hk]; [|now apply IH].
      apply Hx. apply in_or_app. now right.
  - intros [Hin Hnot].
    assert (Hk : In k (Dict.keys (upsert papers d))) by (apply upsert_keys; now left).
    rewrite Hadded in Hk. apply in_app_or in Hk. tauto.
Qed.

Lemma search_papers_keeps_record_order_witness :
  stored (namespace "Quantum Computing") sample_fs = Some sample_mapping
  /\ exists s' d' added,
      search_papers "Quantum Computing" [paper_B; paper_A] sample_fs
      = (Return (map get_short_id [paper_B; paper_A]), s') /\
      stored (namespace "Quantum Computing") s' = Some d' /\
      Dict.keys d' = (Dict.keys sample_mapping ++ added)%list /\
      NoDup added /\
      forall k, In k added
                <-> In k (map get_short_id [paper_B; paper_A])
                    /\ ~ In k (Dict.keys sample_mapping).
Proof.
  split; [reflexivity|].
  exact (search_papers_keeps_record_order
           "Quantum Computing" [paper_B; paper_A] sample_fs sample_mapping eq_refl).
Defined.

(** ** The Metadata Index Query *)

Lemma in_split_first (x : string) (l : list string) :
  In x l -> exists l1 l2, l = (l1 ++ x :: l2)%list /\ ~ In x l1.
Proof.
  induction l as [|y l IH]; [contradiction|].
  destruct (string_dec y x) as [->|Hne].
  - intros _. exists [], l. auto.
  - intros [E|Hin]; [contradiction|].
    destruct (IH Hin) as (l1 & l2 & -> & Hnot).
    exists (y :: l1), l2. split; [reflexivity|].
    intros [E|I]; [contradiction | now apply Hnot].
Qed.

Section LookupMore.
Variable json_dumps : json -> string.

Lemma extract_info_from_skip (paper_id : string) (before rest : list string) (s : fs) :
  forallb (not_found_in paper_id s) before = true ->
  extract_info_from json_dumps paper_id (before ++ rest)%list s
  = extract_info_from json_dumps paper_id rest s.
Proof.
  induction before as [|name before IH]; cbn [forallb app extract_info_from];
    [reflexivity|].
  intros H. apply andb_prop in H. destruct H as [Hname Hrest].
  specialize (IH Hrest). unfold not_found_in in Hname.
  unfold bind, try_except, os_path_isdir, os_path_isfile, open_r, lift, ret, stat.
  destruct (lookup name s) as [[|[[[|v|]|]|]]|] eqn:E; cbn; rewrite ?E; cbn;
    try exact IH; try discriminate Hname.
  destruct (py_contains paper_id (decode v)) as [[|]|e]; try discriminate.
  exact IH.
Qed.

Lemma extract_info_from_hit (paper_id name : string) (rest : list string) (s : fs)
      (d : list (string * json)) (rec : json) :
  stored name s = Some d ->
  Dict.get paper_id d = Some rec ->
  extract_info_from json_dumps paper_id (name :: rest) s
  = (Return (json_dumps rec), s).
Proof.
  unfold stored. intros Hst Hget. cbn [extract_info_from].
  unfold bind, try_except, os_path_isdir, os_path_isfile, open_r, lift, ret, stat.
  destruct (lookup name s) as [[|[[[|v|]|]|]]|] eqn:E; try discriminate.
  destruct (decode v) as [| | | | |d'] eqn:Ev; try discriminate.
  injection Hst as ->.
  cbn. repeat (rewrite E; cbn). rewrite Ev. cbn.
  unfold Dict.has_key. rewrite Hget. cbn. rewrite ?Hget. reflexivity.
Qed.

(** The lookup where a namespace holds the id. *)
Lemma extract_info_found
        (paper_id name : string) (entries : list (string * entry))
        (before after : list string) (d : list (string * json)) (rec : json) :
  map fst entries = (before ++ name :: after)%list ->
  forallb (not_found_in paper_id (Some entries)) before = true ->
  stored name (Some entries) = Some d ->
  Dict.get paper_id d = Some rec ->
  extract_info json_dumps paper_id (Some entries)
  = (Return (json_dumps rec), Some entries).
Proof.
  intros Hnames Hbefore Hst Hget.
  unfold extract_info, bind, os_listdir. rewrite Hnames.
  rewrite extract_info_from_skip by exact Hbefore.
  now apply extract_info_from_hit with d.
Qed.

(** X7. [extract_info] returns the record of the first namespace, in the
    order of enumeration, that holds the id: the text [json.dumps] makes
    of it. The entries enumerated before it are all passed over by the
    loop: each is no directory, or has no regular file papers_info.json,
    or has one whose text is no JSON document, or one whose value does not
    have the id in it. *)
Theorem extract_info_first_match
        (paper_id name : string) (entries : list (string * entry))
        (before after : list string) (d : list (string * json)) (rec : json) :
  map fst entries = (before ++ name :: after)%list ->
  forallb (not_found_in paper_id (Some entries)) before = true ->
  stored name (Some entries) = Some d ->
  Dict.get paper_id d = Some rec ->
  extract_info json_dumps paper_id (Some entries)
  = (Return (json_dumps rec), Some entries).
Proof. apply extract_info_found. Qed.

Lemma lookup_in_names (name : string) (s : fs) :
  lookup name s <> None <-> In name (entry_names s).
Proof.
  destruct s as [entries|]; simpl; [|tauto].
  pose proof (get_none_not_in name entries) as H. unfold Dict.keys in H.
  destruct (Dict.get name entries) as [x|].
  - split; [|discriminate]. intros _.
    destruct (in_dec string_dec name (map fst entries)) as [Hin|Hnot]; [exact Hin|].
    apply H in Hnot. discriminate Hnot.
  - split; [congruence|]. intros Hin. exfalso. now apply (proj1 H).
Qed.

(** The lookup where one namespace holds the id and the loop passes over
    every other entry, wherever the namespace comes in the enumeration. *)
Lemma extract_info_only_holder
      (paper_id name : string) (s : fs) (d : list (string * json)) (rec : json) :
  stored name s = Some d ->
  Dict.get paper_id d = Some rec ->
  (forall other, In other (entry_names s) -> other <> name ->
                 not_found_in paper_id s other = true) ->
  extract_info json_dumps paper_id s = (Return (json_dumps rec), s).
Proof.
  intros Hst Hget Hothers.
  assert (Hin : In name (entry_names s)).
  { apply lookup_in_names. unfold stored in Hst.
    destruct (lookup name s); [discriminate | discriminate Hst]. }
  destruct s as [entries|]; [|contradiction].
  destruct (in_split_first _ _ Hin) as (before & after & Hsplit & Hfirst).
  apply extract_info_found with name before after d; try assumption.
  apply forallb_forall. intros other Hother.
  apply Hothers.
  - rewrite Hsplit. apply in_or_app. now left.
  - intros ->. contradiction.
Qed.

(** X8. What a search has stored, [extract_info] finds: after
    [search_papers] has returned, the lookup of an id of the results gives
    the record of the last result with that id, in whatever order the
    entries of PAPER_DIR are enumerated then, provided the loop of the
    lookup passes over every other entry of PAPER_DIR ([not_found_in]),
    the name of the namespace is one component of a path and the store is
    in a state the search can work on. *)
Theorem search_then_extract_info
        (topic : string) (papers : list Paper) (s : fs) (paper_id : string)
        (q : Paper) :
  plain_name (namespace topic) = true ->
  store_ready (namespace topic) s = true ->
  (forall name, In name (entry_names s) -> name <> namespace topic ->
                not_found_in paper_id s name = true) ->
  last_with_id paper_id papers = Some q ->
  exists s',
    search_papers topic papers s = (Return (map get_short_id papers), s') /\
    forall s'', same_entries s'' s' ->
      extract_info json_dumps paper_id s'' = (Return (json_dumps (paper_info q)), s'').
Proof.
  intros _ Hready Hothers Hlast.
  destruct (search_papers_ready topic papers s Hready) as (d0 & Hstart & Hn & Hrun & Hst).
  set (s' := with_mapping (namespace topic) (upsert papers d0) s) in *.
  exists s'. split; [exact Hrun|].
  intros s'' Hsame.
  apply extract_info_only_holder with (namespace topic) (upsert papers d0).
  - unfold stored in *. now rewrite (Hsame (namespace topic)).
  - rewrite get_upsert. now rewrite Hlast.
  - intros other Hin Hne.
    pose proof (search_papers_elsewhere topic papers s other Hne) as [Hlook _].
    rewrite Hrun in Hlook. cbn [snd] in Hlook. fold s' in Hlook.
    assert (Hold : In other (entry_names s)).
    { apply lookup_in_names. rewrite <- Hlook, <- (Hsame other).
      now apply lookup_in_names. }
    specialize (Hothers other Hold Hne). unfold not_found_in in *.
    now rewrite (Hsame other), Hlook.
Qed.

(** X9. A file that parses to something other than an object stops the
    lookup with a TypeError, unless it is an array or a string in which the
    id is not found: [null], a number or a boolean cannot be searched, and
    an array or a string in which the id is found cannot be indexed by
    it. The entries enumerated before the file are passed over by the
    loop ([not_found_in]). *)
Theorem extract_info_type_error
        (paper_id name : string) (entries : list (string * entry))
        (before after : list string) (v : json) :
  map fst entries = (before ++ name :: after)%list ->
  forallb (not_found_in paper_id (Some entries)) before = true ->
  lookup name (Some entries) = Some (Directory (Some (Regular (Document v)))) ->
  (forall d, decode v <> JObj d) ->
  py_contains paper_id (decode v) <> Return false ->
  extract_info json_dumps paper_id (Some entries) = (Raise TypeError, Some entries).
Proof.
  intros Hnames Hbefore E Hobj Hfound.
  unfold extract_info, bind at 1, os_listdir. rewrite Hnames.
  rewrite extract_info_from_skip by exact Hbefore.
  cbn [extract_info_from].
  unfold bind, try_except, os_path_isdir, os_path_isfile, open_r, lift, ret, stat.
  unfold lookup in E. cbn. repeat (rewrite E; cbn).
  destruct (decode v) as [|b|n|t|items|d]; cbn in *; try reflexivity.
  - destruct (PyStr.contains paper_id t); [reflexivity | congruence].
  - destruct (existsb _ items); [reflexivity | congruence].
  - now destruct (Hobj d).
Qed.

(** X20. A papers_info.json that is no text stops the lookup: the
    UnicodeDecodeError of reading it is none of the exceptions the loop
    catches, so [extract_info] raises it when it comes to the file, the
    entries enumerated before it passed over, whatever the entries after
    it hold. *)
Theorem extract_info_unicode_error
        (paper_id name : string) (entries : list (string * entry))
        (before after : list string) :
  map fst entries = (before ++ name :: after)%list ->
  forallb (not_found_in paper_id (Some entries)) before = true ->
  lookup name (Some entries) = Some (Directory (Some (Regular Undecodable))) ->
  extract_info json_dumps paper_id (Some entries)
  = (Raise UnicodeDecodeError, Some entries).
Proof.
  intros Hnames Hbefore E.
  unfold extract_info, bind at 1, os_listdir. rewrite Hnames.
  rewrite extract_info_from_skip by exact Hbefore.
  cbn [extract_info_from].
  unfold bind, try_except, os_path_isdir, os_path_isfile, open_r, lift, ret, stat.
  unfold lookup in E. cbn. repeat (rewrite E; cbn). reflexivity.
Qed.

(** [extract_info] only reads. *)
Lemma extract_info_unchanged (paper_id : string) (s : fs) :
  snd (extract_info json_dumps paper_id s) = s.
Proof.
  unfold extract_info, bind at 1, os_listdir.
  destruct s as [entries|]; [|reflexivity].
  generalize (map fst entries) as names. intros names.
  induction names as [|name names IH]; [reflexivity|].
  cbn [extract_info_from].
  unfold bind, try_except, os_path_isdir, os_path_isfile, open_r, lift, ret, stat,
    lookup.
  destruct (Dict.get name entries) as [[|[[[|v|]|]|]]|] eqn:E; cbn;
    rewrite ?E; cbn; try exact IH; try reflexivity.
  destruct (py_contains paper_id (decode v)) as [[|]|e]; cbn.
  - destruct (py_getitem (decode v) paper_id) as [info|e]; cbn; [reflexivity|].
    now destruct e.
  - exact IH.
  - now destruct e.
Qed.

End LookupMore.

(** X7 on [sample_fs]: the stray file and the namespace whose file does
    not parse are passed over. *)
Lemma extract_info_first_match_witness :
  extract_info (fun _ => "{}") "2401.00001v1" sample_fs = (Return "{}", sample_fs).
Proof.
  apply (extract_info_first_match
           (fun _ => "{}") "2401.00001v1" "quantum_computing"
           [ ("notes.txt", NotDir);
             ("broken", Directory (Some (Regular Unparseable)));
             ("quantum_computing",
              Directory (Some (Regular (Document (JObj sample_mapping))))) ]
           ["notes.txt"; "broken"] [] sample_mapping
           (JObj [ ("title", JStr "Draft");
                   ("authors", JArr [JStr "A. Author"]);
                   ("summary", JStr "Old.");
                   ("pdf_url", JStr "http://arxiv.org/pdf/2401.00001v0");
                   ("published", JStr "2023-12-31");
                   ("note", JStr "kept by hand") ]));
    reflexivity.
Defined.

(** X8 on [sample_fs]: the lookup finds the revised record. *)
Lemma search_then_extract_info_witness :
  plain_name (namespace "Quantum Computing") = true
  /\ store_ready (namespace "Quantum Computing") sample_fs = true
  /\ last_with_id "2401.00001v1" [paper_A; paper_B; paper_A_revised] = Some paper_A_revised
  /\ exists s',
      search_papers "Quantum Computing" [paper_A; paper_B; paper_A_revised] sample_fs
      = (Return (map get_short_id [paper_A; paper_B; paper_A_revised]), s') /\
      extract_info (fun _ => "{}") "2401.00001v1" s'
      = (Return ((fun _ => "{}") (paper_info paper_A_revised)), s').
Proof.
  split; [reflexivity|]. split; [reflexivity|]. split; [reflexivity|].
  destruct (search_then_extract_info
              (fun _ => "{}") "Quantum Computing" [paper_A; paper_B; paper_A_revised]
              sample_fs "2401.00001v1" paper_A_revised eq_refl eq_refl)
    as (s' & Hrun & Hfind).
  - intros name [<-|[<-|[<-|[]]]] Hne; try reflexivity.
    exfalso. apply Hne. reflexivity.
  - reflexivity.
  - exists s'. split; [exact Hrun|]. apply Hfind. intros name. reflexivity.
Defined.

(** X9 on [odd_fs]: the id is an item of the array the first file holds. *)
Lemma extract_info_type_error_witness :
  extract_info (fun _ => "{}") "2401.00001v1" odd_fs = (Raise TypeError, odd_fs).
Proof.
  apply (extract_info_type_error
           (fun _ => "{}") "2401.00001v1" "listed"
           [ ("listed", Directory (Some (Regular (Document (JArr [JStr "2401.00001v1"])))));
             ("empty", Directory (Some (Regular (Document JNull)))) ]
           [] ["empty"] (JArr [JStr "2401.00001v1"]));
    try reflexivity; discriminate.
Defined.

(** X20 on [undecodable_first_fs]: the id is stored in the second
    namespace, and the lookup does not get there. *)
Lemma extract_info_unicode_error_witness :
  stored "quantum_computing" undecodable_first_fs = Some sample_mapping
  /\ Dict.has_key "2401.00001v1" sample_mapping = true
  /\ extract_info (fun _ => "{}") "2401.00001v1" undecodable_first_fs
     = (Raise UnicodeDecodeError, undecodable_first_fs).
Proof.
  split; [reflexivity|]. split; [reflexivity|].
  apply (extract_info_unicode_error
           (fun _ => "{}") "2401.00001v1" "broken"
           [ ("broken", Directory (Some (Regular Undecodable)));
             ("quantum_computing",
              Directory (Some (Regular (Document (JObj sample_mapping))))) ]
           [] ["quantum_computing"]);
    reflexivity.
Defined.

(** ** The Topic Detail Renderer *)

Section RenderingMore.
Variable py_str : json -> string.

Lemma render_paper_returns_ok (paper_id : string) (v : json) (content out : string) :
  render_paper py_str paper_id v content = Return out -> record_ok v = true.
Proof.
  unfold render_paper, record_ok, py_getitem, Dict.has_key.
  destruct v as [| | | | |d]; try discriminate.
  destruct (Dict.get "title" d) as [t|]; [|discriminate]. cbn [and_then].
  destruct (Dict.get "authors" d) as [a|]; [|discriminate]. cbn [and_then].
  destruct (py_join ", " a) as [joined|] eqn:Ej; [|discriminate]. cbn [and_then].
  destruct (Dict.get "published" d) as [p|]; [|discriminate]. cbn [and_then].
  destruct (Dict.get "pdf_url" d) as [u|]; [|discriminate]. cbn [and_then].
  destruct (Dict.get "summary" d) as [sm|]; [|discriminate]. cbn [and_then].
  destruct (py_slice_to 500 sm) as [shown|] eqn:Es; [|discriminate].
  intros _.
  assert (Ha : match a with
               | JArr items =>
                   match all_strings items with Some _ => true | None => false end
               | JStr _ | JObj _ => true
               | _ => false
               end = true).
  { destruct a as [| | | |items|]; try discriminate Ej; try reflexivity.
    simpl in Ej. now destruct (all_strings items). }
  assert (Hs : match sm with JStr _ | JArr _ => true | _ => false end = true).
  { now destruct sm. }
  now rewrite Ha, Hs.
Qed.

Lemma render_papers_returns_ok (items : list (string * json)) (content out : string) :
  render_papers py_str items content = Return out ->
  Forall (fun kv => record_ok (snd kv) = true) items.
Proof.
  revert content. induction items as [|[k v] items IH]; intros content;
    cbn [render_papers]; [constructor|].
  destruct (render_paper py_str k v content) as [c|e] eqn:E; cbn [and_then];
    [|discriminate].
  intros H. constructor; [now apply render_paper_returns_ok in E | now apply IH with c].
Qed.

(** X11. [get_topic_papers] renders a namespace exactly when every record
    in it has the five fields in a shape it can print; one record that has
    not makes the call raise a KeyError or a TypeError, which the handler
    for corrupt files does not catch. *)
Theorem get_topic_papers_renders_iff_records_ok
        (topic : string) (s : fs) (d : list (string * json)) :
  stored (namespace topic) s = Some d ->
  ((exists out, get_topic_papers py_str topic s = (Return out, s))
   <-> Forall (fun kv => record_ok (snd kv) = true) d)
  /\ (~ Forall (fun kv => record_ok (snd kv) = true) d ->
      exists e, get_topic_papers py_str topic s = (Raise e, s)
                /\ (e = TypeError \/ e = KeyError)).
Proof.
  intros Hst. rewrite (get_topic_papers_stored py_str topic s d Hst). split.
  - split.
    + intros (out & H). injection H as H. now apply render_papers_returns_ok in H.
    + intros Hok. destruct (render_papers_ok py_str d Hok) as (body & Hbody & _).
      rewrite render_papers_shift, Hbody. cbn [and_then]. eauto.
  - intros Hbad.
    destruct (render_papers py_str d _) as [out|e] eqn:E.
    + exfalso. apply Hbad. now apply render_papers_returns_ok in E.
    + exists e. split; [reflexivity|]. now apply render_papers_raises in E.
Qed.

(** X12. The handler of [get_topic_papers] is for files that do not parse
    only: a file that parses to an array or a string raises an
    AttributeError (it has a length and no items), one that parses to
    [null], a number or a boolean a TypeError (it has no length), and a
    directory in the place of the file an IsADirectoryError. *)
Theorem get_topic_papers_errors (topic : string) (s : fs) :
  (lookup (namespace topic) s = Some (Directory (Some Subdir)) ->
   get_topic_papers py_str topic s = (Raise IsADirectoryError, s))
  /\ (forall v,
         lookup (namespace topic) s = Some (Directory (Some (Regular (Document v)))) ->
         (exists items, decode v = JArr items) \/ (exists t, decode v = JStr t) ->
         get_topic_papers py_str topic s = (Raise AttributeError, s))
  /\ (forall v,
         lookup (namespace topic) s = Some (Directory (Some (Regular (Document v)))) ->
         decode v = JNull \/ (exists b, decode v = JBool b)
         \/ (exists n, decode v = JNum n) ->
         get_topic_papers py_str topic s = (Raise TypeError, s)).
Proof.
  unfold get_topic_papers. fold (namespace topic).
  generalize (namespace topic) as name. intros name.
  unfold bind, try_except, os_path_exists, open_r, lift, ret, stat. cbv zeta.
  split; [|split].
  - intros E. rewrite E. cbn. now rewrite E.
  - intros v E [[items Ev]|[t Ev]]; rewrite E; cbn; rewrite E; cbn; now rewrite Ev.
  - intros v E [Ev|[[b Ev]|[n Ev]]]; rewrite E; cbn; rewrite E; cbn; now rewrite Ev.
Qed.

End RenderingMore.

(** X11 on [sample_fs], whose one record has the five fields. *)
Lemma get_topic_papers_renders_iff_records_ok_witness :
  stored (namespace "Quantum Computing") sample_fs = Some sample_mapping
  /\ ((exists out,
         get_topic_papers (fun _ => EmptyString) "Quantum Computing" sample_fs
         = (Return out, sample_fs))
      <-> Forall (fun kv : string * json => record_ok (snd kv) = true) sample_mapping).
Proof.
  split; [reflexivity|].
  exact (proj1 (get_topic_papers_renders_iff_records_ok
                  (fun _ => EmptyString) "Quantum Computing" sample_fs sample_mapping
                  eq_refl)).
Defined.

(** X12 on [odd_fs]: an array, and [null]. *)
Lemma get_topic_papers_errors_witness :
  get_topic_papers (fun _ => EmptyString) "Listed" odd_fs = (Raise AttributeError, odd_fs)
  /\ get_topic_papers (fun _ => EmptyString) "Empty" odd_fs = (Raise TypeError, odd_fs).
Proof.
  split.
  - apply (proj1 (proj2 (get_topic_papers_errors (fun _ => EmptyString) "Listed" odd_fs))
             (JArr [JStr "2401.00001v1"]) eq_refl).
    left. eexists. reflexivity.
  - apply (proj2 (proj2 (get_topic_papers_errors (fun _ => EmptyString) "Empty" odd_fs))
             JNull eq_refl).
    left. reflexivity.
Defined.

Lemma upsert_fresh (papers : list Paper) (d : list (string * json)) :
  NoDup (Dict.keys d ++ map get_short_id papers) ->
  upsert papers d
  = (d ++ map (fun p => (get_short_id p, paper_info p)) papers)%list.
Proof.
  unfold upsert. revert d.
  induction papers as [|p papers IH]; intros d H; cbn [fold_left map].
  - now rewrite app_nil_r.
  - assert (Hp : Dict.get (get_short_id p) d = None).
    { apply get_none_not_in. simpl in H. apply NoDup_remove_2 in H.
      intros I. apply H. apply in_or_app. now left. }
    rewrite (set_fresh _ _ _ Hp), IH.
    + now rewrite <- app_assoc.
    + unfold Dict.keys. rewrite map_app. simpl. rewrite <- app_assoc. exact H.
Qed.

Section RenderingBuilt.
Variable py_str : json -> string.

Lemma render_papers_built (papers : list Paper) (content : string) :
  render_papers py_str (map (fun p => (get_short_id p, paper_info p)) papers) content
  = Return (content ++ fold_right (fun p rest => paper_block p ++ rest) EmptyString papers).
Proof.
  revert content. induction papers as [|p papers IH]; intros content;
    cbn [map render_papers fold_right].
  - now rewrite append_empty_r.
  - rewrite render_paper_shift, render_paper_built. cbn [and_then].
    rewrite IH. now rewrite append_assoc.
Qed.

(** X13. What a first search stores, the renderer shows: when the
    namespace had no file, or one whose text is no JSON document, and the
    results have different ids, the document of the topic is the title,
    the number of results, and for each result, in the order of the
    search, its title, id, authors joined by commas, date, link and the
    first 500 characters of its summary followed by "..."; with no result
    at all it is the title and "Total papers: 0". The topic is of ASCII
    characters, and the name of the namespace is one component of a
    path. *)
Theorem search_then_get_topic_papers
        (topic : string) (papers : list Paper) (s : fs) :
  PyStr.is_ascii topic = true ->
  plain_name (namespace topic) = true ->
  missing_or_not_json (namespace topic) s = true ->
  NoDup (map get_short_id papers) ->
  exists s',
    search_papers topic papers s = (Return (map get_short_id papers), s') /\
    get_topic_papers py_str topic s'
    = (Return (topic_header topic (List.length papers)
               ++ fold_right (fun p rest => paper_block p ++ rest) EmptyString papers),
       s').
Proof.
  intros _ _ Habsent Hnd.
  destruct (search_papers_from_empty topic papers s Habsent) as (s' & Hrun & Hst).
  exists s'. split; [exact Hrun|].
  rewrite (get_topic_papers_stored py_str topic s' _ Hst).
  rewrite (upsert_fresh papers []) by exact Hnd. cbn [app].
  rewrite render_papers_built, length_map.
  unfold topic_header. now rewrite !append_assoc.
Qed.

End RenderingBuilt.

(** X13 on a missing PAPER_DIR: two results, the long summary cut. *)
Lemma search_then_get_topic_papers_witness :
  PyStr.is_ascii "Quantum Computing" = true
  /\ plain_name (namespace "Quantum Computing") = true
  /\ missing_or_not_json (namespace "Quantum Computing") None = true
  /\ NoDup (map get_short_id [paper_A; paper_long])
  /\ exists s',
      search_papers "Quantum Computing" [paper_A; paper_long] None
      = (Return (map get_short_id [paper_A; paper_long]), s') /\
      get_topic_papers (fun _ => EmptyString) "Quantum Computing" s'
      = (Return (topic_header "Quantum Computing" 2
                 ++ paper_block paper_A ++ paper_block paper_long ++ EmptyString),
         s').
Proof.
  assert (Hnd : NoDup (map get_short_id [paper_A; paper_long])).
  { repeat constructor; simpl; intuition discriminate. }
  split; [reflexivity|]. split; [reflexivity|]. split; [reflexivity|].
  split; [exact Hnd|].
  exact (search_then_get_topic_papers
           (fun _ => EmptyString) "Quantum Computing" [paper_A; paper_long] None
           eq_refl eq_refl eq_refl Hnd).
Defined.

(** ** The name of a namespace as a topic *)

Lemma map_chars_map_chars (f g : ascii -> ascii) (s : string) :
  PyStr.map_chars f (PyStr.map_chars g s) = PyStr.map_chars (fun c => f (g c)) s.
Proof.
  induction s as [|c s IH]; simpl; [reflexivity | now rewrite IH].
Qed.

Lemma map_chars_ext (f g : ascii -> ascii) (s : string) :
  (forall c, f c = g c) -> PyStr.map_chars f s = PyStr.map_chars g s.
Proof.
  intros H. induction s as [|c s IH]; simpl; [reflexivity | now rewrite H, IH].
Qed.

Lemma namespace_char_idempotent (c : ascii) :
  (let r := fun c => if Ascii.eqb c " " then "_"%char else c in
   r (PyStr.lower_char (r (PyStr.lower_char c))) = r (PyStr.lower_char c)).
Proof. destruct c as [[] [] [] [] [] [] [] []]; reflexivity. Qed.

Lemma namespace_char_spaces (c : ascii) :
  (let r := fun c => if Ascii.eqb c " " then "_"%char else c in
   let r' := fun c => if Ascii.eqb c "_" then " "%char else c in
   r' (r (PyStr.lower_char c)) = r' (PyStr.lower_char c)).
Proof. destruct c as [[] [] [] [] [] [] [] []]; reflexivity. Qed.

Lemma namespace_idempotent (topic : string) :
  namespace (namespace topic) = namespace topic.
Proof.
  unfold namespace, PyStr.replace, PyStr.lower.
  rewrite !map_chars_map_chars. apply map_chars_ext.
  intros c. apply namespace_char_idempotent.
Qed.

Lemma namespace_char_ascii (c : ascii) :
  (nat_of_ascii c <? 128)%nat = true ->
  (nat_of_ascii (if Ascii.eqb (PyStr.lower_char c) " " then "_"%char
                 else PyStr.lower_char c) <? 128)%nat = true.
Proof. destruct c as [[] [] [] [] [] [] [] []]; intros H; try discriminate H; reflexivity. Qed.

Lemma namespace_is_ascii (topic : string) :
  PyStr.is_ascii topic = true -> PyStr.is_ascii (namespace topic) = true.
Proof.
  unfold namespace, PyStr.replace, PyStr.lower. rewrite map_chars_map_chars.
  induction topic as [|c topic IH]; [reflexivity|].
  cbn [PyStr.is_ascii PyStr.map_chars]. intros H.
  apply andb_prop in H. destruct H as [Hc Hrest].
  rewrite (IH Hrest), andb_true_r. now apply namespace_char_ascii.
Qed.

Lemma title_namespace (topic : string) :
  PyStr.title (PyStr.replace "_" " " (namespace topic))
  = PyStr.title (PyStr.replace "_" " " topic).
Proof.
  unfold PyStr.title. rewrite (title_replace_lower topic). f_equal.
  unfold namespace, PyStr.replace, PyStr.lower.
  rewrite !map_chars_map_chars. apply map_chars_ext.
  intros c. apply namespace_char_spaces.
Qed.

(** X14. The name of a namespace, as [get_available_folders] shows it, is
    itself a topic of that namespace, for a topic of ASCII characters:
    deriving the name once more changes nothing, a search under the name
    is the search under the topic, and for a namespace whose file holds a
    mapping the renderer gives the same document under the name as under
    the topic, title included. *)
Theorem namespace_name_is_a_topic (topic : string) :
  PyStr.is_ascii topic = true ->
  PyStr.is_ascii (namespace topic) = true
  /\ namespace (namespace topic) = namespace topic
  /\ (forall papers s,
        search_papers (namespace topic) papers s = search_papers topic papers s)
  /\ (forall py_str s d,
        stored (namespace topic) s = Some d ->
        get_topic_papers py_str (namespace topic) s = get_topic_papers py_str topic s).
Proof.
  intros Hascii.
  split; [now apply namespace_is_ascii|].
  split; [apply namespace_idempotent|]. split.
  - intros papers s. apply search_papers_by_namespace, namespace_idempotent.
  - intros py_str s d Hst.
    rewrite (get_topic_papers_stored py_str topic s d Hst).
    rewrite <- (namespace_idempotent topic) in Hst.
    rewrite (get_topic_papers_stored py_str (namespace topic) s d Hst).
    now rewrite title_namespace.
Qed.

Lemma namespace_name_is_a_topic_witness :
  PyStr.is_ascii "Quantum Computing" = true
  /\ stored (namespace "Quantum Computing") searched_fs
     = Some [ (get_short_id paper_A, paper_info paper_A);
              (get_short_id paper_long, paper_info paper_long) ]
  /\ get_topic_papers (fun _ => EmptyString) (namespace "Quantum Computing") searched_fs
     = get_topic_papers (fun _ => EmptyString) "Quantum Computing" searched_fs.
Proof.
  split; [reflexivity|]. split; [reflexivity|].
  exact (proj2 (proj2 (proj2 (namespace_name_is_a_topic "Quantum Computing" eq_refl)))
           (fun _ => EmptyString) searched_fs _ eq_refl).
Defined.

(** ** The Topic Listing Renderer *)

Lemma lines_occurs (name : string) (folders : list string) :
  In name folders ->
  occurs ("- " ++ name ++ nl)
         (fold_right (fun folder rest => "- " ++ folder ++ nl ++ rest) EmptyString folders).
Proof.
  induction folders as [|x xs IH]; [contradiction|]. cbn [fold_right].
  intros [->|Hin].
  - exists EmptyString.
    exists (fold_right (fun folder rest => "- " ++ folder ++ nl ++ rest) EmptyString xs).
    cbn [append]. now rewrite !append_assoc.
  - rewrite <- !append_assoc. apply occurs_after. now apply IH.
Qed.

Lemma listing_occurs (name : string) (folders : list string) :
  In name folders -> occurs ("- " ++ name ++ nl) (listing folders).
Proof.
  intros Hin. unfold listing. destruct folders as [|f l]; [contradiction|].
  do 3 apply occurs_after. apply occurs_before. now apply lines_occurs.
Qed.

(** X15. A topic that has been searched is listed: after [search_papers]
    has returned, [get_available_folders] has the line of the namespace,
    whether the search found anything or not and in whatever order the
    entries of PAPER_DIR are enumerated then, provided the name of the
    namespace is one component of a path and the store is in a state the
    search can work on. *)
Theorem searched_topic_is_listed (topic : string) (papers : list Paper) (s : fs) :
  plain_name (namespace topic) = true ->
  store_ready (namespace topic) s = true ->
  exists s',
    search_papers topic papers s = (Return (map get_short_id papers), s') /\
    forall s'', same_entries s'' s' ->
      In (namespace topic) (qualifying s'') /\ listed (namespace topic) s''.
Proof.
  intros _ Hready.
  destruct (search_papers_ready topic papers s Hready) as (d0 & _ & _ & Hrun & Hst).
  set (s' := with_mapping (namespace topic) (upsert papers d0) s) in *.
  exists s'. split; [exact Hrun|].
  intros s'' Hsame.
  assert (Hlook : lookup (namespace topic) s''
                  = Some (Directory (Some (Regular (Document (JObj (upsert papers d0))))))).
  { rewrite (Hsame (namespace topic)). apply lookup_with_mapping. }
  assert (Hq : In (namespace topic) (qualifying s'')).
  { unfold qualifying. apply filter_In. split.
    - apply lookup_in_names. rewrite Hlook. discriminate.
    - unfold qualifies, stat. now rewrite Hlook. }
  split; [exact Hq|].
  exists (listing (qualifying s'')), s''. split.
  - apply get_available_folders_run.
  - now apply listing_occurs.
Qed.

Lemma searched_topic_is_listed_witness :
  plain_name (namespace "Graph Theory") = true
  /\ store_ready (namespace "Graph Theory") sample_fs = true
  /\ exists s',
      search_papers "Graph Theory" [] sample_fs = (Return (map get_short_id []), s') /\
      In (namespace "Graph Theory") (qualifying s') /\
      listed (namespace "Graph Theory") s'.
Proof.
  split; [reflexivity|]. split; [reflexivity|].
  destruct (searched_topic_is_listed "Graph Theory" [] sample_fs eq_refl eq_refl)
    as (s' & Hrun & Hlisted).
  exists s'. split; [exact Hrun|]. apply Hlisted. intros name. reflexivity.
Defined.

(** ** The remote tools and [search_from_document] *)

Section RemoteFacts.
Variable service : list Net.request -> Net.request -> option Net.response.
Variable pdf_page_texts : list Byte.byte -> option (list string).
Variable utf8_decode : list Byte.byte -> option string.

Lemma post_run (url query : string) (top_k : Z) (sent : list Net.request) :
  Net.bind
    (Net.requests_post service url
       (JObj [("query", JStr query); ("limit", JNum top_k)])
       [("Content-Type", "application/json")] [("UUID", "jeet09")])
    (fun response =>
       Net.bind (Net.raise_for_status response)
                (fun _ => Net.response_json response)) sent
  = (answer_result (service sent (search_request url query top_k)),
     (sent ++ [search_request url query top_k])%list).
Proof.
  unfold Net.bind, Net.requests_post, Net.send, answer_result.
  fold (search_request url query top_k).
  destruct (service sent (search_request url query top_k)) as [r|]; [|reflexivity].
  unfold Net.raise_for_status, Net.response_json, Net.raise, Net.ret.
  destruct ((400 <=? Net.status_code r) && (Net.status_code r <? 600))%nat;
    [reflexivity|].
  now destruct (Net.text r).
Qed.

Lemma pages_text_from (page_texts : list string) (text : string) :
  fold_left (fun text page_text =>
               match page_text with
               | EmptyString => text
               | _ => text ++ page_text ++ " "
               end)
            page_texts text
  = text ++ spaced_pages page_texts.
Proof.
  unfold spaced_pages. revert text.
  induction page_texts as [|p ps IH]; intros text; cbn [fold_left filter].
  - now rewrite append_empty_r.
  - rewrite IH. destruct p as [|c p]; [reflexivity|].
    cbn [String.eqb negb fold_right]. now rewrite !append_assoc.
Qed.

(** X17. [search_from_document] refuses a file type other than pdf and
    txt with a ValueError before anything is sent; the type is compared in
    lower case, so PDF and Txt are accepted; and bytes that are no UTF-8,
    or a PDF that cannot be read, raise before anything is sent as well. *)
Theorem search_from_document_refuses
        (file_bytes : list Byte.byte) (file_type : string) (sent : list Net.request) :
  (PyStr.lower file_type <> "pdf" -> PyStr.lower file_type <> "txt" ->
   search_from_document service pdf_page_texts utf8_decode file_bytes file_type sent
   = (Net.Err Net.ValueError, sent))
  /\ (PyStr.lower file_type = "txt" -> utf8_decode file_bytes = None ->
      search_from_document service pdf_page_texts utf8_decode file_bytes file_type sent
      = (Net.Err Net.UnicodeDecodeError, sent))
  /\ (PyStr.lower file_type = "pdf" -> pdf_page_texts file_bytes = None ->
      search_from_document service pdf_page_texts utf8_decode file_bytes file_type sent
      = (Net.Err Net.PdfReadError, sent)).
Proof.
  unfold search_from_document, Net.bind at 1.
  split; [|split].
  - intros Hpdf Htxt.
    apply String.eqb_neq in Hpdf. apply String.eqb_neq in Htxt.
    now rewrite Hpdf, Htxt.
  - intros Htxt Hdec. rewrite Htxt, Hdec. reflexivity.
  - intros Hpdf Hread. rewrite Hpdf, Hread. reflexivity.
Qed.

(** X18. For a text file [search_from_document] is the hybrid search for
    the decoded text, and for a PDF the hybrid search for the texts of its
    pages, each followed by a space, the pages without text left out, so
    for the empty query when no page has text; the limit is 5 in every
    case, and one request is sent. *)
Theorem search_from_document_is_hybrid_search
        (file_bytes : list Byte.byte) (file_type : string) (sent : list Net.request) :
  (forall text,
      PyStr.lower file_type = "txt" -> utf8_decode file_bytes = Some text ->
      search_from_document service pdf_page_texts utf8_decode file_bytes file_type sent
      = hybrid_search service text 5 sent)
  /\ (forall page_texts,
         PyStr.lower file_type = "pdf" -> pdf_page_texts file_bytes = Some page_texts ->
         search_from_document service pdf_page_texts utf8_decode file_bytes file_type sent
         = hybrid_search service (spaced_pages page_texts) 5 sent
         /\ (Forall (fun page_text => page_text = EmptyString) page_texts ->
             spaced_pages page_texts = EmptyString)
         /\ snd (search_from_document service pdf_page_texts utf8_decode
                   file_bytes file_type sent)
            = (sent ++ [search_request
                          "https://search-vector-service.apps.prod.cirrostratus.org/hybridsearch"
                          (spaced_pages page_texts) 5])%list).
Proof.
  split.
  - intros text Htxt Hdec. unfold search_from_document, Net.bind at 1.
    rewrite Htxt, Hdec. reflexivity.
  - intros page_texts Hpdf Hread.
    assert (Hrun : search_from_document service pdf_page_texts utf8_decode
                     file_bytes file_type sent
                   = hybrid_search service (spaced_pages page_texts) 5 sent).
    { unfold search_from_document, Net.bind at 1. rewrite Hpdf, Hread.
      cbn [String.eqb Ascii.eqb Bool.eqb Net.ret]. unfold pages_text.
      now rewrite pages_text_from. }
    split; [exact Hrun|]. split.
    + intros Hempty. unfold spaced_pages. clear Hread Hrun.
      induction Hempty as [|p ps -> _ IH]; [reflexivity | exact IH].
    + rewrite Hrun. unfold hybrid_search. cbv zeta. now rewrite post_run.
Qed.

End RemoteFacts.

(** X17 with the type "docx". *)
Lemma search_from_document_refuses_witness :
  PyStr.lower "docx" <> "pdf" /\ PyStr.lower "docx" <> "txt"
  /\ search_from_document service_ok (fun _ => None) (fun _ => None) [] "docx" []
     = (Net.Err Net.ValueError, []).
Proof.
  assert (H1 : PyStr.lower "docx" <> "pdf") by discriminate.
  assert (H2 : PyStr.lower "docx" <> "txt") by discriminate.
  split; [exact H1|]. split; [exact H2|].
  exact (proj1 (search_from_document_refuses
                  service_ok (fun _ => None) (fun _ => None) [] "docx" []) H1 H2).
Defined.

(** X18 with the type "PDF" and a PDF of three pages, the second without
    text. *)
Lemma search_from_document_is_hybrid_search_witness :
  PyStr.lower "PDF" = "pdf"
  /\ search_from_document service_ok (fun _ => Some ["one"; ""; "two"]) (fun _ => None)
       [] "PDF" []
     = hybrid_search service_ok "one two " 5 [].
Proof.
  split; [reflexivity|].
  exact (proj1 (proj2 (search_from_document_is_hybrid_search
                         service_ok (fun _ => Some ["one"; ""; "two"]) (fun _ => None)
                         [] "PDF" []) ["one"; ""; "two"] eq_refl eq_refl)).
Defined.

(** ** The readers *)

(** X10. The lookup and the two renderers only read: whatever
    [extract_info], [get_available_folders] and [get_topic_papers] return
    or raise, the files are as they were. *)
Theorem readers_never_write
        (json_dumps py_str : json -> string) (paper_id topic : string) (s : fs) :
  snd (extract_info json_dumps paper_id s) = s
  /\ snd (get_available_folders s) = s
  /\ snd (get_topic_papers py_str topic s) = s.
Proof.
  split; [apply extract_info_unchanged|]. split.
  - now rewrite get_available_folders_run.
  - apply get_topic_papers_reads_only.
Qed.

(** X19. With PAPER_DIR in place, the lookup of an id returns the
    sentence that nothing is saved, with the id in it, when the loop
    passes over every entry ([not_found_in]): what is no directory, a
    directory without papers_info.json or with a directory of that name, a
    file whose text is no JSON document, a mapping without the id, and an
    array or a string in which the id is not found. *)
Theorem extract_info_miss_returns_sentence
        (json_dumps : json -> string) (paper_id : string)
        (entries : list (string * entry)) :
  forallb (not_found_in paper_id (Some entries)) (map fst entries) = true ->
  extract_info json_dumps paper_id (Some entries)
  = (Return ("There's no saved information related to paper " ++ paper_id ++ "."),
     Some entries).
Proof.
  intros H. unfold extract_info, bind at 1, os_listdir.
  now apply extract_info_from_not_found.
Qed.

Lemma extract_info_miss_returns_sentence_witness :
  extract_info (fun _ => "{}") "2402.00002v3" sample_fs
  = (Return "There's no saved information related to paper 2402.00002v3.", sample_fs).
Proof.
  exact (extract_info_miss_returns_sentence
           (fun _ => "{}") "2402.00002v3"
           [ ("notes.txt", NotDir);
             ("broken", Directory (Some (Regular Unparseable)));
             ("quantum_computing",
              Directory (Some (Regular (Document (JObj sample_mapping))))) ]
           eq_refl).
Defined.
